(** * T-Flow AI medical triage: the triage core and its HTTP front

    A shallow embedding of [backend/triage_core.py] (the AI classifier
    adapter [call_groq], the keyword classifier [rule_based_triage], the
    orchestrator [triage_patient], the vitals evaluator [flag_vitals]) and of
    the parts of [backend/main.py] that validate a triage request and compute
    the statistics of [/api/stats].

    Conventions of the embedding.
    - Python [str] is Rocq's [string]; the texts considered are ASCII, where
      Python's Unicode case mapping and white-space classes coincide with the
      functions of [PyStr] below.
    - Python [dict]s with string keys are [gmap string _]; JSON values are the
      inductive [value].
    - The language-model provider, the store and the clock are oracles of a
      [World]; every outbound call is recorded in a trace, so that "is called"
      and "is not called" are statements about the trace.
    - A Python exception is the [Raise] outcome of the [outcome] type. *)

From Stdlib Require Import ZArith QArith Qabs Qround Lqa String Ascii List Bool Lia.
From stdpp Require Import gmap strings list fin_maps.

Local Open Scope string_scope.

(** ** Python string primitives *)

Module PyStr.

Definition code (c : ascii) : N := N_of_ascii c.

Definition is_upper (c : ascii) : bool :=
  ((65 <=? code c) && (code c <=? 90))%N.

Definition is_lower (c : ascii) : bool :=
  ((97 <=? code c) && (code c <=? 122))%N.

(** [str.isspace] on ASCII: TAB, LF, VT, FF, CR, FS, GS, RS, US, SPACE. *)
Definition is_space (c : ascii) : bool :=
  (((9 <=? code c) && (code c <=? 13))
   || ((28 <=? code c) && (code c <=? 32)))%N.

Definition lower_char (c : ascii) : ascii :=
  if is_upper c then ascii_of_N (code c + 32) else c.

Definition upper_char (c : ascii) : ascii :=
  if is_lower c then ascii_of_N (code c - 32) else c.

(** [s.lower()] *)
Fixpoint lower (s : string) : string :=
  match s with
  | EmptyString => EmptyString
  | String c r => String (lower_char c) (lower r)
  end.

(** [s.capitalize()]: first character upper-cased, the rest lower-cased. *)
Definition capitalize (s : string) : string :=
  match s with
  | EmptyString => EmptyString
  | String c r => String (upper_char c) (lower r)
  end.

Fixpoint lstrip (s : string) : string :=
  match s with
  | EmptyString => EmptyString
  | String c r => if is_space c then lstrip r else s
  end.

Fixpoint rstrip (s : string) : string :=
  match s with
  | EmptyString => EmptyString
  | String c r =>
      match rstrip r with
      | EmptyString => if is_space c then EmptyString else String c EmptyString
      | r' => String c r'
      end
  end.

(** [s.strip()] *)
Definition strip (s : string) : string := rstrip (lstrip s).

(** Truth value of a string: [if s] / [if not s]. *)
Definition truthy (s : string) : bool :=
  match s with EmptyString => false | String _ _ => true end.

Definition newline : ascii := ascii_of_N 10.

(** [s.split('\n')]: never the empty list, [''.split('\n') == ['']]. *)
Fixpoint split_lines (s : string) : list string :=
  match s with
  | EmptyString => [EmptyString]
  | String c r =>
      if Ascii.eqb c newline then EmptyString :: split_lines r
      else match split_lines r with
           | [] => [String c EmptyString]
           | l :: ls => String c l :: ls
           end
  end.

Fixpoint starts_with (k t : string) : bool :=
  match k, t with
  | EmptyString, _ => true
  | String _ _, EmptyString => false
  | String a k', String b t' => Ascii.eqb a b && starts_with k' t'
  end.

(** [k in t] for strings: [k] occurs in [t] at some position. *)
Fixpoint contains (k t : string) : bool :=
  starts_with k t
  || match t with
     | EmptyString => false
     | String _ t' => contains k t'
     end.

(** [x in xs] for a list of strings. *)
Definition mem (x : string) (xs : list string) : bool :=
  existsb (String.eqb x) xs.

(** What "[k] is a substring of [t]" means, independently of the search. *)
Definition occurs_in (k t : string) : Prop :=
  exists pre post, t = String.append pre (String.append k post).

End PyStr.

(** ** The rule-based classifier, [rule_based_triage] *)

Record level_info := { level : string; keywords : list string }.

Definition levels : list level_info :=
  [ {| level := "Critical";
       keywords := ["seizure"; "loss of consciousness"; "coma"] |};
    {| level := "Urgent";
       keywords := ["vomiting"; "blurred vision"; "slurred speech"] |};
    {| level := "Moderate"; keywords := ["headache"; "neck pain"] |};
    {| level := "Low"; keywords := ["dizziness"; "mild pain"; "tiredness"] |} ].

(** [any(keyword in text for keyword in level_info["keywords"])] *)
Definition any_keyword (text : string) (li : level_info) : bool :=
  existsb (fun keyword => PyStr.contains keyword text) (keywords li).

(** The [for level_info in levels] loop with its early [return]. *)
Fixpoint scan_levels (text : string) (ls : list level_info) : option string :=
  match ls with
  | [] => None
  | level_info :: rest =>
      if any_keyword text level_info then Some (level level_info)
      else scan_levels text rest
  end.

Definition rule_based_triage (symptoms_text : string) : string :=
  let text := PyStr.lower symptoms_text in
  match scan_levels text levels with
  | Some l => l
  | None => "Moderate"
  end.

(** ** Values, exceptions and the outside world *)

(** JSON values as they travel to and from the store. *)
#[warnings="-register-all"]
Inductive value :=
| VNone
| VBool (b : bool)
| VInt (z : Z)
| VStr (s : string)
| VDict (items : list (string * value)).

(** Python truth value, as used by [if x] and by generator filters. *)
Definition value_truthy (v : value) : bool :=
  match v with
  | VNone => false
  | VBool b => b
  | VInt z => negb (z =? 0)%Z
  | VStr s => PyStr.truthy s
  | VDict items => match items with [] => false | _ :: _ => true end
  end.

(** An exception: its class and [str(e)]. *)
Record exn := { exn_class : string; exn_str : string }.

Definition Exception (msg : string) : exn :=
  {| exn_class := "Exception"; exn_str := msg |}.
Definition IndexError : exn :=
  {| exn_class := "IndexError"; exn_str := "list index out of range" |}.
Definition KeyError (k : string) : exn :=
  {| exn_class := "KeyError"; exn_str := k |}.
Definition ZeroDivisionError : exn :=
  {| exn_class := "ZeroDivisionError"; exn_str := "division by zero" |}.

Inductive outcome (A : Type) :=
| Ok (a : A)
| Raise (e : exn).
Arguments Ok {A} a.
Arguments Raise {A} e.

(** The collaborators: the completion provider (user message to reply text,
    or an exception for network failures, timeouts and malformed replies), the
    store ([insert(...).execute()] gives the returned rows or an exception,
    [select('*').order(...).limit(n).execute()] likewise) and the wall clock
    ([datetime.now().isoformat()]). *)
Record World := {
  groq_complete : string -> outcome string;
  store_insert : string -> gmap string value -> outcome (list (gmap string value));
  store_select : string -> Z -> outcome (list (gmap string value));
  clock_now : string
}.

Inductive event :=
| EvGroq (user_message : string)
| EvInsert (table : string) (record : gmap string value)
| EvSelect (table : string) (limit_count : Z)
| EvPrint (line : string).

(** Computations: a trace of events threaded through, a value or an
    exception out. *)
Definition M (A : Type) : Type := list event -> outcome A * list event.

Definition ret {A} (a : A) : M A := fun tr => (Ok a, tr).
Definition raise {A} (e : exn) : M A := fun tr => (Raise e, tr).
Definition bind {A B} (m : M A) (k : A -> M B) : M B :=
  fun tr => match m tr with
            | (Ok a, tr') => k a tr'
            | (Raise e, tr') => (Raise e, tr')
            end.
(** [try: m  except Exception as e: h e] *)
Definition try_except {A} (m : M A) (h : exn -> M A) : M A :=
  fun tr => match m tr with
            | (Ok a, tr') => (Ok a, tr')
            | (Raise e, tr') => h e tr'
            end.
Definition emit (ev : event) : M unit := fun tr => (Ok tt, (tr ++ [ev])%list).
Definition lift {A} (o : outcome A) : M A := fun tr => (o, tr).

Notation "'let!' x ':=' m 'in' k" := (bind m (fun x => k))
  (at level 10, x name, m at level 200, k at level 200).

Definition print (line : string) : M unit := emit (EvPrint line).

(** [xs[0]] and [d[k]] with their exceptions. *)
Definition first_row {A} (xs : list A) : M A :=
  match xs with
  | [] => raise IndexError
  | x :: _ => ret x
  end.

Definition getitem {V} (d : gmap string V) (k : string) : M V :=
  match d !! k with
  | Some v => ret v
  | None => raise (KeyError k)
  end.

(** ** The AI classifier adapter, [call_groq] *)

Definition dquote : string := String (ascii_of_N 34) EmptyString.

(** The user message: [f'A patient describes their symptoms: "{symptoms_text}"'] *)
Definition user_message (symptoms_text : string) : string :=
  "A patient describes their symptoms: " ++ dquote ++ symptoms_text ++ dquote.

Definition valid_levels : list string := ["critical"; "urgent"; "moderate"; "low"].

(** First loop over [reversed(lines)]: a line that is a valid level once
    stripped and lower-cased. *)
Fixpoint find_level (ls : list string) : option string :=
  match ls with
  | [] => None
  | line :: rest =>
      let line_clean := PyStr.lower (PyStr.strip line) in
      if PyStr.mem line_clean valid_levels then Some (PyStr.capitalize line_clean)
      else find_level rest
  end.

(** Second loop over [reversed(lines)]: a line with something left once
    stripped. *)
Fixpoint find_nonblank (ls : list string) : option string :=
  match ls with
  | [] => None
  | line :: rest =>
      if PyStr.truthy (PyStr.strip line)
      then Some (PyStr.capitalize (PyStr.lower (PyStr.strip line)))
      else find_nonblank rest
  end.

(** Lines 196-210: what is returned for a stripped, non-empty [result]. *)
Definition extract_level (result : string) : string :=
  let lines := PyStr.split_lines result in
  match find_level (rev lines) with
  | Some l => l
  | None =>
      match find_nonblank (rev lines) with
      | Some l => l
      | None => PyStr.capitalize result
      end
  end.

Definition groq_request (w : World) (symptoms_text : string) : M string :=
  let! _ := emit (EvGroq (user_message symptoms_text)) in
  lift (groq_complete w (user_message symptoms_text)).

Definition call_groq (w : World) (symptoms_text : string) : M string :=
  try_except
    (let! content := groq_request w symptoms_text in
     let result := PyStr.strip content in
     if negb (PyStr.truthy result)
     then raise (Exception "No response from Groq AI")
     else ret (extract_level result))
    (fun e => raise (Exception ("Groq API error: " ++ exn_str e))).

(** [if patient_info is None: patient_info = {}] *)
Definition or_empty (patient_info : option (list (string * value)))
  : list (string * value) :=
  match patient_info with
  | None => []
  | Some d => d
  end.

(** ** The orchestrator, [triage_patient] *)

Record TriageResult := {
  triage_level : string;
  record_id : value;                   (* [VNone] is Python's [None] *)
  timestamp : value;
  data : option (gmap string value);   (* [None] is Python's [None] *)
  error : option string                (* [None]: the key is absent *)
}.

Definition insert (w : World) (table : string) (record : gmap string value)
  : M (list (gmap string value)) :=
  let! _ := emit (EvInsert table record) in
  lift (store_insert w table record).

Definition triage_record (symptoms_text triage_level : string)
    (patient_info : list (string * value)) (use_ai : bool) : gmap string value :=
  {[ "symptoms" := VStr symptoms_text;
     "triage_level" := VStr triage_level;
     "patient_info" := VDict patient_info;
     "use_ai" := VBool use_ai ]}.

(** Lines 259-266. *)
Definition choose_level (w : World) (symptoms_text : string) (use_ai : bool)
  : M string :=
  if use_ai then
    try_except (call_groq w symptoms_text)
      (fun e =>
         let! _ := print ("AI failed, using rule-based fallback: " ++ exn_str e) in
         ret (rule_based_triage symptoms_text))
  else ret (rule_based_triage symptoms_text).

(** Lines 269-292. *)
Definition store_triage (w : World) (symptoms_text triage_level : string)
    (patient_info : list (string * value)) (use_ai : bool) : M TriageResult :=
  try_except
    (let! rows := insert w "triage"
                  (triage_record symptoms_text triage_level patient_info use_ai) in
     let! row := first_row rows in
     let! id := getitem row "id" in
     let! created_at := getitem row "created_at" in
     ret {| triage_level := triage_level;
            record_id := id;
            timestamp := created_at;
            data := Some row;
            error := None |})
    (fun error =>
       let! _ := print ("Error storing triage data: " ++ exn_str error) in
       ret {| triage_level := triage_level;
              record_id := VNone;
              timestamp := VStr (clock_now w);
              data := None;
              error := Some "Failed to store in database" |}).

Definition triage_patient (w : World) (symptoms_text : string)
    (patient_info : option (list (string * value))) (use_ai : bool)
  : M TriageResult :=
  let patient_info := or_empty patient_info in
  let! triage_level := choose_level w symptoms_text use_ai in
  store_triage w symptoms_text triage_level patient_info use_ai.

(** ** The vitals evaluator, [flag_vitals] *)

Record VitalsFlags := {
  pulse_flag : bool;
  systolic_flag : bool;
  diastolic_flag : bool;
  any_flag : bool
}.

Record VitalsResult := {
  flags : VitalsFlags;
  vitals_record_id : value;
  vitals_timestamp : value;
  vitals_data : option (gmap string value);
  vitals_error : option string
}.

Definition vitals_record (pulse systolicBP diastolicBP : Z) (f : VitalsFlags)
    (patient_info : list (string * value)) : gmap string value :=
  {[ "pulse" := VInt pulse;
     "systolic_bp" := VInt systolicBP;
     "diastolic_bp" := VInt diastolicBP;
     "pulse_flag" := VBool (pulse_flag f);
     "systolic_flag" := VBool (systolic_flag f);
     "diastolic_flag" := VBool (diastolic_flag f);
     "any_flag" := VBool (any_flag f);
     "patient_info" := VDict patient_info ]}.

(** Lines 309-312: the four flags, [vitals[k]] raising [KeyError] on a
    missing key. *)
Definition compute_flags (vitals : gmap string Z) : M VitalsFlags :=
  let! pulse := getitem vitals "pulse" in
  let pulse_flag := (pulse <? 60)%Z || (pulse >? 100)%Z in
  let! systolicBP := getitem vitals "systolicBP" in
  let systolic_flag := (systolicBP <? 90)%Z || (systolicBP >? 160)%Z in
  let! diastolicBP := getitem vitals "diastolicBP" in
  let diastolic_flag := (diastolicBP <? 60)%Z || (diastolicBP >? 100)%Z in
  let any_flag := pulse_flag || systolic_flag || diastolic_flag in
  ret {| pulse_flag := pulse_flag;
         systolic_flag := systolic_flag;
         diastolic_flag := diastolic_flag;
         any_flag := any_flag |}.

Definition flag_vitals (w : World) (vitals : gmap string Z)
    (patient_info : option (list (string * value))) : M VitalsResult :=
  let patient_info := or_empty patient_info in
  let! f := compute_flags vitals in
  try_except
    (let! pulse := getitem vitals "pulse" in
     let! systolicBP := getitem vitals "systolicBP" in
     let! diastolicBP := getitem vitals "diastolicBP" in
     let! rows := insert w "vitals"
                    (vitals_record pulse systolicBP diastolicBP f patient_info) in
     let! row := first_row rows in
     let! id := getitem row "id" in
     let! created_at := getitem row "created_at" in
     ret {| flags := f;
            vitals_record_id := id;
            vitals_timestamp := created_at;
            vitals_data := Some row;
            vitals_error := None |})
    (fun error =>
       let! _ := print ("Error storing vitals data: " ++ exn_str error) in
       ret {| flags := f;
              vitals_record_id := VNone;
              vitals_timestamp := VStr (clock_now w);
              vitals_data := None;
              vitals_error := Some "Failed to store in database" |}).

(** [check_vitals] of [main.py], lines 149-153: the dictionary handed to
    [flag_vitals]. *)
Definition vitals_data_of (pulse systolicBP diastolicBP : Z) : gmap string Z :=
  {[ "pulse" := pulse; "systolicBP" := systolicBP; "diastolicBP" := diastolicBP ]}.

(** [VitalsRequest]: the ranges of the three fields and the validator
    [validate_blood_pressure]. *)
Definition valid_vitals (pulse systolicBP diastolicBP : Z) : Prop :=
  (30 <= pulse <= 250 /\ 60 <= systolicBP <= 300 /\ 30 <= diastolicBP <= 200
   /\ diastolicBP < systolicBP)%Z.

(** ** Request validation and the triage endpoint ([main.py]) *)

Definition ValueError (msg : string) : exn :=
  {| exn_class := "ValueError"; exn_str := msg |}.

(** [len(s)] *)
Definition len (s : string) : Z := Z.of_nat (String.length s).

(** [Field(..., min_length=5, max_length=2000)]: pydantic checks the length
    of the value as it was received; the [@validator] of the field runs after
    this check. *)
Definition check_length (v : string) : outcome string :=
  if (len v <? 5)%Z then
    Raise (ValueError "ensure this value has at least 5 characters")
  else if (2000 <? len v)%Z then
    Raise (ValueError "ensure this value has at most 2000 characters")
  else Ok v.

Definition pii_indicators : list string :=
  ["ssn"; "social security"; "credit card"; "phone number"].

(** [any(indicator in v.lower() for indicator in pii_indicators)] *)
Definition has_pii (v : string) : bool :=
  existsb (fun indicator => PyStr.contains indicator (PyStr.lower v)) pii_indicators.

Definition validate_symptoms (v : string) : outcome string :=
  if negb (PyStr.truthy (PyStr.strip v)) then
    Raise (ValueError "Symptoms cannot be empty")
  else if has_pii v then
    Raise (ValueError "Symptoms appear to contain sensitive information")
  else Ok (PyStr.strip v).

(** The [symptoms] field of a [TriageRequest] built from the raw text. *)
Definition TriageRequest_symptoms (raw : string) : outcome string :=
  match check_length raw with
  | Ok v => validate_symptoms v
  | Raise e => Raise e
  end.


Inductive http_reply (A : Type) :=
| Http200 (body : A)
| Http422 (detail : string)
| Http500 (detail : string).
Arguments Http200 {A} body.
Arguments Http422 {A} detail.
Arguments Http500 {A} detail.


(** ** Recent records and the statistics of [/api/stats] *)

Definition select_recent (w : World) (table : string) (limit_count : Z)
  : M (list (gmap string value)) :=
  let! _ := emit (EvSelect table limit_count) in
  lift (store_select w table limit_count).

Definition get_recent_triage_records (w : World) (limit_count : Z)
  : M (list (gmap string value)) :=
  try_except (select_recent w "triage" limit_count)
    (fun error =>
       let! _ := print ("Error fetching triage records: " ++ exn_str error) in
       ret []).

Definition get_recent_vitals_records (w : World) (limit_count : Z)
  : M (list (gmap string value)) :=
  try_except (select_recent w "vitals" limit_count)
    (fun error =>
       let! _ := print ("Error fetching vitals records: " ++ exn_str error) in
       ret []).

Definition TypeError (msg : string) : exn :=
  {| exn_class := "TypeError"; exn_str := msg |}.

(** The dictionary [triage_levels]: keys are JSON values in insertion order,
    compared as Python compares them ([True == 1]); a [dict] is not hashable. *)
Definition hashable (v : value) : bool :=
  match v with VDict _ => false | _ => true end.

Definition key_eqb (a b : value) : bool :=
  match a, b with
  | VNone, VNone => true
  | VBool x, VBool y => Bool.eqb x y
  | VInt x, VInt y => (x =? y)%Z
  | VBool x, VInt y | VInt y, VBool x => (Z.b2z x =? y)%Z
  | VStr x, VStr y => String.eqb x y
  | _, _ => false
  end.

Fixpoint dict_get (d : list (value * Z)) (k : value) (default : Z) : Z :=
  match d with
  | [] => default
  | (k', n) :: rest => if key_eqb k' k then n else dict_get rest k default
  end.

Fixpoint dict_set (d : list (value * Z)) (k : value) (n : Z) : list (value * Z) :=
  match d with
  | [] => [(k, n)]
  | (k', n') :: rest =>
      if key_eqb k' k then (k', n) :: rest else (k', n') :: dict_set rest k n
  end.

(** The loop of lines 253-255. *)
Fixpoint count_levels (triage_levels : list (value * Z))
    (triage_records : list (gmap string value)) : M (list (value * Z)) :=
  match triage_records with
  | [] => ret triage_levels
  | record :: rest =>
      let level := match record !! "triage_level" with
                   | Some v => v
                   | None => VStr "Unknown"
                   end in
      if hashable level then
        count_levels (dict_set triage_levels level
                        (dict_get triage_levels level 0 + 1)%Z) rest
      else raise (TypeError "unhashable type: 'dict'")
  end.

(** [sum(1 for record in vitals_records if record.get('any_flag', False))] *)
Definition flagged_count (vitals_records : list (gmap string value)) : Z :=
  Z.of_nat
    (List.length
       (List.filter
          (fun record => match record !! "any_flag" with
                         | Some v => value_truthy v
                         | None => false
                         end)
          vitals_records)).

(** [a / b] on integers: a quotient, or [ZeroDivisionError]. The quotient is
    carried as the exact rational. *)
Definition truediv (a b : Z) : outcome Q :=
  if (b =? 0)%Z then Raise ZeroDivisionError
  else Ok (Qmake a 1 / Qmake b 1)%Q.

(** Nearest integer, a tie going to the even neighbour. *)
Definition round_half_even (x : Q) : Z :=
  let f := Qfloor x in
  match Qcompare (x - Qmake f 1) (Qmake 1 2) with
  | Lt => f
  | Gt => (f + 1)%Z
  | Eq => if Z.even f then f else (f + 1)%Z
  end.

(** [round(x, 2)] *)
Definition round2 (x : Q) : Q := Qmake (round_half_even (x * Qmake 100 1)) 100.

(** Line 267:
    [round((flagged_vitals / len(vitals_records) * 100) if vitals_records else 0, 2)] *)
Definition flag_percentage_of (flagged_vitals : Z)
    (vitals_records : list (gmap string value)) : M Q :=
  let! x := match vitals_records with
            | [] => ret (Qmake 0 1)
            | _ :: _ =>
                let! q := lift (truediv flagged_vitals
                                  (Z.of_nat (List.length vitals_records))) in
                ret (q * Qmake 100 1)%Q
            end in
  ret (round2 x).

Record Stats := {
  total_assessments : Z;
  levels_breakdown : list (value * Z);
  total_checks : Z;
  flagged_cases : Z;
  flag_percentage : Q;
  stats_timestamp : string
}.

(** The body of the [try] of [get_triage_stats], lines 247-270. *)
Definition stats_body (w : World) : M Stats :=
  let! triage_records := get_recent_triage_records w 100 in
  let! vitals_records := get_recent_vitals_records w 100 in
  let! triage_levels := count_levels [] triage_records in
  let flagged_vitals := flagged_count vitals_records in
  let! pct := flag_percentage_of flagged_vitals vitals_records in
  ret {| total_assessments := Z.of_nat (List.length triage_records);
         levels_breakdown := triage_levels;
         total_checks := Z.of_nat (List.length vitals_records);
         flagged_cases := flagged_vitals;
         flag_percentage := pct;
         stats_timestamp := clock_now w |}.

Definition get_triage_stats (w : World) : M (http_reply Stats) :=
  try_except
    (let! s := stats_body w in ret (Http200 s))
    (fun e =>
       let! _ := print ("Error generating stats: " ++ exn_str e) in
       ret (Http500 ("Failed to generate statistics: " ++ exn_str e))).

(** ** The vitals request and the remaining endpoints ([main.py]) *)

From Stdlib Require DecimalString.

(** [str(n)] for an integer. *)
Definition str_int (n : Z) : string :=
  DecimalString.NilZero.string_of_int (Z.to_int n).

(** [Field(..., ge=lo, le=hi)] on an integer field. *)
Definition check_range (lo hi v : Z) : outcome Z :=
  if (v <? lo)%Z then
    Raise (ValueError ("ensure this value is greater than or equal to " ++ str_int lo))
  else if (hi <? v)%Z then
    Raise (ValueError ("ensure this value is less than or equal to " ++ str_int hi))
  else Ok v.

(** The validator of [diastolicBP]; [values] holds the fields validated
    before it. *)
Definition validate_blood_pressure (v : Z) (values : gmap string Z) : outcome Z :=
  match values !! "systolicBP" with
  | Some systolicBP =>
      if (v >=? systolicBP)%Z then
        Raise (ValueError "Diastolic BP must be lower than systolic BP")
      else Ok v
  | None => Ok v
  end.

(** One field of a model: its checks run on the values validated so far; a
    valid field joins them, an invalid one adds an error under its name. *)
Definition validate_field (name : string) (check : gmap string Z -> outcome Z)
    (st : gmap string Z * list (string * string))
  : gmap string Z * list (string * string) :=
  match check (fst st) with
  | Ok v => (<[name := v]> (fst st), snd st)
  | Raise e => (fst st, (snd st ++ [(name, exn_str e)])%list)
  end.

Record VitalsRequest := {
  req_pulse : Z;
  req_systolicBP : Z;
  req_diastolicBP : Z
}.

(** The fields of [VitalsRequest] in the order of the class: the range of
    each, then, for a [diastolicBP] in range, [validate_blood_pressure]. *)
Definition VitalsRequest_fields (pulse systolicBP diastolicBP : Z)
  : gmap string Z * list (string * string) :=
  validate_field "diastolicBP"
    (fun values =>
       match check_range 30 200 diastolicBP with
       | Ok v => validate_blood_pressure v values
       | Raise e => Raise e
       end)
    (validate_field "systolicBP" (fun _ => check_range 60 300 systolicBP)
       (validate_field "pulse" (fun _ => check_range 30 250 pulse) (∅, []))).

Definition VitalsRequest_validate (pulse systolicBP diastolicBP : Z)
  : list (string * string) + VitalsRequest :=
  match snd (VitalsRequest_fields pulse systolicBP diastolicBP) with
  | [] => inr {| req_pulse := pulse;
                 req_systolicBP := systolicBP;
                 req_diastolicBP := diastolicBP |}
  | errors => inl errors
  end.

(** What an endpoint answers: a body (200), the errors of request validation
    (422), or an [HTTPException] with its status code and detail. *)
Inductive reply (A : Type) :=
| Reply (body : A)
| ValidationError (errors : list (string * string))
| HTTPError (status_code : Z) (detail : string).
Arguments Reply {A} body.
Arguments ValidationError {A} errors.
Arguments HTTPError {A} status_code detail.



Record RecentResponse := {
  records : list (gmap string value);
  count : Z;
  recent_timestamp : string
}.

(** [get_recent_triage] and [get_recent_vitals], lines 175-236, which differ
    in the function that reads the records and in the words of the messages.
    The [HTTPException] of the limit test is raised inside the [try] and
    raised again by the first [except] clause, so it is the answer. *)
Definition get_recent (w : World)
    (fetch : World -> Z -> M (list (gmap string value)))
    (log_prefix detail_prefix : string) (limit : Z) : M (reply RecentResponse) :=
  if (limit <? 1)%Z || (limit >? 100)%Z then
    ret (HTTPError 400 "Limit must be between 1 and 100")
  else
    try_except
      (let! records := fetch w limit in
       ret (Reply {| records := records;
                     count := Z.of_nat (List.length records);
                     recent_timestamp := clock_now w |}))
      (fun e =>
         let! _ := print (log_prefix ++ exn_str e) in
         ret (HTTPError 500 (detail_prefix ++ exn_str e))).

Definition get_recent_triage (w : World) (limit : Z) : M (reply RecentResponse) :=
  get_recent w get_recent_triage_records
    "Error fetching recent triage: " "Failed to retrieve triage records: " limit.

Definition get_recent_vitals (w : World) (limit : Z) : M (reply RecentResponse) :=
  get_recent w get_recent_vitals_records
    "Error fetching recent vitals: " "Failed to retrieve vitals records: " limit.

(** ** Vocabulary of the specification *)

(** The four severity labels. *)
Definition severity_labels : list string := ["Critical"; "Urgent"; "Moderate"; "Low"].

(** The keyword groups as the specification lists them. *)
Definition critical_keywords : list string :=
  ["seizure"; "loss of consciousness"; "coma"].
Definition urgent_keywords : list string :=
  ["vomiting"; "blurred vision"; "slurred speech"].
Definition moderate_keywords : list string := ["headache"; "neck pain"].
Definition low_keywords : list string := ["dizziness"; "mild pain"; "tiredness"].

(** Some keyword of the group occurs somewhere in the text. *)
Definition mentions (group : list string) (text : string) : Prop :=
  exists k, In k group /\ PyStr.occurs_in k text.

(** No call to the completion provider among the events. *)
Definition no_groq (evs : list event) : Prop := forall m, ~ In (EvGroq m) evs.

(** Sample collaborators, for concrete runs: a store that answers an insert
    with the row it was given plus an id and a creation time, a store that is
    unreachable, and providers with a fixed behaviour. *)
Definition stored_row (record : gmap string value) : gmap string value :=
  <["id" := VInt 1]> (<["created_at" := VStr "2024-05-01T10:00:00+00:00"]> record).

Definition store_up (table : string) (record : gmap string value)
  : outcome (list (gmap string value)) := Ok [stored_row record].

Definition store_down (table : string) (record : gmap string value)
  : outcome (list (gmap string value)) := Raise (Exception "connection refused").

Definition sample_world (groq : string -> outcome string) (store_ok : bool)
    (recent : string -> list (gmap string value)) : World :=
  {| groq_complete := groq;
     store_insert := if store_ok then store_up else store_down;
     store_select := fun table _ => Ok (recent table);
     clock_now := "2024-05-01T10:00:01.000000" |}.

Definition groq_down (message : string) : outcome string :=
  Raise (Exception "Connection error.").

Definition groq_says (content : string) (message : string) : outcome string :=
  Ok content.

Definition no_records (table : string) : list (gmap string value) := [].

(** The invariant of a [VitalsFlags] value. *)
Definition flags_consistent (f : VitalsFlags) : Prop :=
  any_flag f = pulse_flag f || systolic_flag f || diastolic_flag f.

(** The four flags of a row of the [vitals] table. *)
Definition record_flags (record : gmap string value) : option VitalsFlags :=
  match record !! "pulse_flag", record !! "systolic_flag",
        record !! "diastolic_flag", record !! "any_flag" with
  | Some (VBool p), Some (VBool s), Some (VBool d), Some (VBool a) =>
      Some {| pulse_flag := p; systolic_flag := s; diastolic_flag := d; any_flag := a |}
  | _, _, _, _ => None
  end.

(** Lines of a provider response. [matches_label]: the line, surrounding white
    space removed and case ignored, is one of the four labels. [nonblank]:
    something is left of the line once stripped. [normalise]: the line
    stripped, lower-cased, its first character upper-cased. *)
Definition matches_label (line : string) : bool :=
  PyStr.mem (PyStr.lower (PyStr.strip line)) valid_levels.

Definition nonblank (line : string) : bool := PyStr.truthy (PyStr.strip line).

Definition normalise (line : string) : string :=
  PyStr.capitalize (PyStr.lower (PyStr.strip line)).

(** [line] is the last element of [lines] that satisfies [P]. *)
Definition last_such (P : string -> bool) (lines : list string) (line : string) : Prop :=
  exists pre post,
    lines = (pre ++ line :: post)%list
    /\ P line = true
    /\ Forall (fun l => P l = false) post.

(** The line is one of the four labels up to case only, nothing trimmed. *)
Definition equals_label_ignoring_case (line : string) : bool :=
  PyStr.mem (PyStr.lower line) valid_levels.

(** Every character is white space. *)
Fixpoint all_space (s : string) : bool :=
  match s with
  | EmptyString => true
  | String c r => PyStr.is_space c && all_space r
  end.

Definition LF : string := String PyStr.newline EmptyString.

(** Provider responses used in the concrete runs. *)
Definition reply_high : string := "Triage level:" ++ LF ++ "HIGH".
Definition reply_padded : string := "Urgent" ++ LF ++ " low " ++ LF ++ "see a doctor".
Definition reply_reasoned : string :=
  "The patient may be dehydrated." ++ LF ++ "URGENT" ++ LF ++ LF.

(** Rows read back from the store in the concrete runs: three of each table,
    one of the vitals rows flagged. *)
Definition sample_records (table : string) : list (gmap string value) :=
  if String.eqb table "vitals" then
    [ {[ "any_flag" := VBool true ]}; {[ "any_flag" := VBool false ]}; ∅ ]
  else
    [ {[ "triage_level" := VStr "Urgent" ]}; {[ "triage_level" := VStr "Low" ]};
      {[ "triage_level" := VStr "Urgent" ]} ].

(** ** Vocabulary for the further properties *)

(** The calls recorded in a list of events, by kind. *)
Definition insert_events (evs : list event) : list (string * gmap string value) :=
  flat_map (fun ev => match ev with
                      | EvInsert table record => [(table, record)]
                      | _ => []
                      end) evs.

Definition groq_events (evs : list event) : list string :=
  flat_map (fun ev => match ev with
                      | EvGroq message => [message]
                      | _ => []
                      end) evs.

Definition select_events (evs : list event) : list (string * Z) :=
  flat_map (fun ev => match ev with
                      | EvSelect table limit_count => [(table, limit_count)]
                      | _ => []
                      end) evs.

(** The rows of a table as [get_recent_*_records] sees them: those of the
    store, or none when the store fails. *)
Definition rows_or_none (o : outcome (list (gmap string value)))
  : list (gmap string value) :=
  match o with
  | Ok rows => rows
  | Raise _ => []
  end.

(** The first of the three keys that a vitals dictionary lacks. *)
Definition first_missing (vitals : gmap string Z) : option string :=
  match vitals !! "pulse", vitals !! "systolicBP", vitals !! "diastolicBP" with
  | None, _, _ => Some "pulse"
  | Some _, None, _ => Some "systolicBP"
  | Some _, Some _, None => Some "diastolicBP"
  | Some _, Some _, Some _ => None
  end.

(** The flags of three readings, by the thresholds. *)
Definition threshold_flags (pulse systolicBP diastolicBP : Z) : VitalsFlags :=
  {| pulse_flag := (pulse <? 60)%Z || (pulse >? 100)%Z;
     systolic_flag := (systolicBP <? 90)%Z || (systolicBP >? 160)%Z;
     diastolic_flag := (diastolicBP <? 60)%Z || (diastolicBP >? 100)%Z;
     any_flag := ((pulse <? 60)%Z || (pulse >? 100)%Z)
                 || ((systolicBP <? 90)%Z || (systolicBP >? 160)%Z)
                 || ((diastolicBP <? 60)%Z || (diastolicBP >? 100)%Z) |}.

(** What [flag_vitals] returns when the row could not be stored. *)
Definition vitals_unstored (w : World) (f : VitalsFlags) : VitalsResult :=
  {| flags := f;
     vitals_record_id := VNone;
     vitals_timestamp := VStr (clock_now w);
     vitals_data := None;
     vitals_error := Some "Failed to store in database" |}.

(** What [triage_patient] returns when the row could not be stored. *)
Definition triage_unstored (w : World) (label : string) : TriageResult :=
  {| triage_level := label;
     record_id := VNone;
     timestamp := VStr (clock_now w);
     data := None;
     error := Some "Failed to store in database" |}.

(** The store answered an insert, but not with a row that has an id and a
    creation time. *)
Definition unusable_answer (rows : list (gmap string value)) : Prop :=
  match rows with
  | [] => True
  | row :: _ => row !! "id" = None \/ row !! "created_at" = None
  end.

(** Urgency of a label, Critical highest. *)
Definition rank (label : string) : nat :=
  if String.eqb label "Critical" then 3
  else if String.eqb label "Urgent" then 2
  else if String.eqb label "Moderate" then 1
  else 0.

(** Some keyword of some group occurs in the text. *)
Definition mentions_any (text : string) : Prop :=
  mentions (critical_keywords ++ urgent_keywords ++ moderate_keywords ++ low_keywords)%list
    text.


(** The level under which a triage row is counted. *)
Definition record_level (record : gmap string value) : value :=
  match record !! "triage_level" with
  | Some v => v
  | None => VStr "Unknown"
  end.

(** How many rows are counted under the key [k]. *)
Definition count_level (k : value) (rows : list (gmap string value)) : Z :=
  Z.of_nat (List.length (List.filter (fun r => key_eqb (record_level r) k) rows)).

Fixpoint sum_counts (d : list (value * Z)) : Z :=
  match d with
  | [] => 0
  | (_, n) :: rest => n + sum_counts rest
  end.

(** A store whose reads fail. *)
Definition reads_fail (w : World) : Prop :=
  forall table n, exists e, store_select w table n = Raise e.

Definition blind_world : World :=
  {| groq_complete := groq_down;
     store_insert := store_down;
     store_select := fun _ _ => Raise (Exception "connection refused");
     clock_now := "2024-05-01T10:00:01.000000" |}.

(** Empty, or beginning with a character that is not white space. *)
Definition starts_solid (s : string) : Prop :=
  match s with
  | EmptyString => True
  | String c _ => PyStr.is_space c = false
  end.

(** A store that acknowledges an insert without returning the row. *)
Definition silent_world : World :=
  {| groq_complete := groq_down;
     store_insert := fun _ _ => Ok [];
     store_select := fun _ _ => Ok [];
     clock_now := "2024-05-01T10:00:01.000000" |}.

(** * Properties *)

(** ** Strings *)

Module PyStrFacts.
Import PyStr.

Lemma starts_with_spec (k t : string) :
  starts_with k t = true <-> exists post, t = String.append k post.
Proof.
  revert t. induction k as [|a k IH]; intros t; simpl.
  - split; [intros _; now exists t | reflexivity].
  - destruct t as [|b t].
    + split; [discriminate | intros [post H]; discriminate].
    + rewrite andb_true_iff, Ascii.eqb_eq, IH. split.
      * intros [-> [post ->]]. now exists post.
      * intros [post H]. injection H as -> ->. split; [reflexivity | now exists post].
Qed.

Lemma contains_here (k t : string) : starts_with k t = true -> contains k t = true.
Proof. intros H. destruct t; simpl in *; rewrite H; reflexivity. Qed.

Lemma contains_later (k : string) (c : ascii) (t : string) :
  contains k t = true -> contains k (String c t) = true.
Proof. intros H. cbn [contains]. rewrite H. apply orb_true_r. Qed.

(** The search finds a keyword exactly when it occurs, wherever it is. *)
Lemma contains_spec (k t : string) : contains k t = true <-> occurs_in k t.
Proof.
  split.
  - induction t as [|c t IH]; cbn [contains]; rewrite orb_true_iff.
    + intros [H | H]; [|discriminate].
      apply starts_with_spec in H as [post ->]. now exists EmptyString, post.
    + intros [H | H].
      * apply starts_with_spec in H as [post ->]. now exists EmptyString, post.
      * destruct (IH H) as (pre & post & ->). now exists (String c pre), post.
  - intros (pre & post & ->). induction pre as [|c pre IH]; simpl String.append.
    + apply contains_here, starts_with_spec. now exists post.
    + now apply contains_later.
Qed.

Lemma lower_append (a b : string) :
  lower (String.append a b) = String.append (lower a) (lower b).
Proof. induction a as [|c a IH]; simpl; [|rewrite IH]; reflexivity. Qed.

(** Lower-casing keeps occurrences. *)
Lemma occurs_in_lower (k t : string) : occurs_in k t -> occurs_in (lower k) (lower t).
Proof.
  intros (pre & post & ->). exists (lower pre), (lower post).
  now rewrite !lower_append.
Qed.

(** *** Stripping *)

Lemma lstrip_all_space (s : string) : all_space s = true -> lstrip s = EmptyString.
Proof.
  induction s as [|c r IH]; simpl; [reflexivity|].
  intros [Hc Hr]%andb_true_iff. rewrite Hc. auto.
Qed.

Lemma all_space_lstrip (s : string) : all_space (lstrip s) = true -> all_space s = true.
Proof.
  induction s as [|c r IH]; simpl; [reflexivity|].
  destruct (is_space c) eqn:Hc; simpl; [exact IH|].
  rewrite Hc. discriminate.
Qed.

Lemma rstrip_empty (s : string) : rstrip s = EmptyString -> all_space s = true.
Proof.
  induction s as [|c r IH]; simpl; [reflexivity|].
  destruct (rstrip r) eqn:Hr; [|discriminate].
  destruct (is_space c); [intros _; now apply IH | discriminate].
Qed.

Lemma rstrip_nonempty (s : string) :
  truthy (rstrip s) = true -> all_space (rstrip s) = false.
Proof.
  induction s as [|c r IH]; cbn [rstrip]; [discriminate|].
  destruct (rstrip r) as [|c' r'] eqn:Hr.
  - destruct (is_space c) eqn:Hc; simpl; [discriminate|]. now rewrite Hc.
  - intros _. change (is_space c && all_space (String c' r') = false).
    rewrite (IH eq_refl). apply andb_false_r.
Qed.

(** A string strips to nothing exactly when it is white space only. *)
Lemma strip_blank (s : string) : truthy (strip s) = false <-> all_space s = true.
Proof.
  unfold strip. split.
  - intros H. apply all_space_lstrip, rstrip_empty.
    destruct (rstrip (lstrip s)); [reflexivity | discriminate].
  - intros H. now rewrite (lstrip_all_space s H).
Qed.

(** What is left after stripping is not white space only, unless empty. *)
Lemma strip_nonempty (s : string) :
  truthy (strip s) = true -> all_space (strip s) = false.
Proof. apply rstrip_nonempty. Qed.

(** *** Lines *)

Lemma split_lines_cons (s : string) : exists l ls, split_lines s = l :: ls.
Proof.
  induction s as [|c r (l & ls & IH)]; simpl; [now eexists _, _|].
  destruct (Ascii.eqb c newline); [now eexists _, _|].
  rewrite IH. now eexists _, _.
Qed.

Lemma newline_is_space : is_space newline = true.
Proof. reflexivity. Qed.

Lemma all_space_lines (s : string) :
  Forall (fun l => all_space l = true) (split_lines s) -> all_space s = true.
Proof.
  induction s as [|c r IH]; simpl; [reflexivity|].
  destruct (Ascii.eqb c newline) eqn:Hc.
  - apply Ascii.eqb_eq in Hc. subst c. intros H. inversion H; subst.
    rewrite newline_is_space. simpl. auto.
  - destruct (split_lines_cons r) as (l & ls & Hl). rewrite Hl in *.
    intros H. inversion H as [|? ? Hhd Htl]; subst. simpl in Hhd.
    apply andb_true_iff in Hhd as [Hc1 Hl1]. rewrite Hc1. simpl.
    apply IH. now constructor.
Qed.

Lemma all_or_some (P : string -> bool) (ls : list string) :
  Forall (fun l => P l = false) ls \/ Exists (fun l => P l = true) ls.
Proof.
  induction ls as [|l ls [IH|IH]].
  - left. constructor.
  - destruct (P l) eqn:Hl; [right; now constructor | left; now constructor].
  - right. now constructor 2.
Qed.

(** A string that is not white space only has a non-blank line. *)
Lemma nonblank_line (s : string) :
  all_space s = false ->
  Exists (fun l => truthy (strip l) = true) (split_lines s).
Proof.
  intros Hs.
  destruct (all_or_some (fun l => truthy (strip l)) (split_lines s)) as [H|H];
    [|exact H].
  rewrite all_space_lines in Hs; [discriminate|].
  eapply Forall_impl; [exact H|]. intros l Hl. now apply strip_blank.
Qed.

(** *** Case *)





End PyStrFacts.

(** ** The rule-based classifier *)

Lemma any_keyword_spec (text : string) (li : level_info) :
  any_keyword text li = true <-> mentions (keywords li) text.
Proof.
  unfold any_keyword, mentions. rewrite existsb_exists.
  split; intros (k & Hin & H); exists k; (split; [exact Hin|]);
    now apply PyStrFacts.contains_spec.
Qed.

Lemma any_keyword_false (text : string) (li : level_info) :
  any_keyword text li = false <-> ~ mentions (keywords li) text.
Proof.
  rewrite <- any_keyword_spec. destruct (any_keyword text li); split; congruence.
Qed.

Lemma scan_levels_label (text : string) (ls : list level_info) (l : string) :
  scan_levels text ls = Some l -> In l (List.map level ls).
Proof.
  induction ls as [|li ls IH]; simpl; [discriminate|].
  destruct (any_keyword text li); [intros [= <-]; now left | intros H; right; auto].
Qed.

Lemma rule_based_triage_label (s : string) : In (rule_based_triage s) severity_labels.
Proof.
  unfold rule_based_triage.
  destruct (scan_levels (PyStr.lower s) levels) as [l|] eqn:E.
  - apply scan_levels_label in E. exact E.
  - simpl. tauto.
Qed.

(** A keyword in lower case that occurs in a text occurs in the lower-cased
    text. *)
Lemma mentions_lower (group : list string) (text : string) :
  (forall k, In k group -> PyStr.lower k = k) ->
  mentions group text -> mentions group (PyStr.lower text).
Proof.
  intros Hlow (k & Hin & Hocc). exists k. split; [exact Hin|].
  rewrite <- (Hlow k Hin). now apply PyStrFacts.occurs_in_lower.
Qed.

Lemma keywords_lower_case (k : string) :
  In k (critical_keywords ++ urgent_keywords ++ moderate_keywords ++ low_keywords)%list ->
  PyStr.lower k = k.
Proof. simpl. intros H. repeat (destruct H as [<- | H]; [reflexivity|]). destruct H. Qed.

Lemma rule_based_triage_unfold (s : string) :
  rule_based_triage s =
    let text := PyStr.lower s in
    if any_keyword text {| level := "Critical"; keywords := critical_keywords |}
    then "Critical"
    else if any_keyword text {| level := "Urgent"; keywords := urgent_keywords |}
    then "Urgent"
    else if any_keyword text {| level := "Moderate"; keywords := moderate_keywords |}
    then "Moderate"
    else if any_keyword text {| level := "Low"; keywords := low_keywords |}
    then "Low"
    else "Moderate".
Proof.
  unfold rule_based_triage, levels. cbn [scan_levels level].
  cbv zeta. repeat (destruct (any_keyword _ _); [reflexivity|]). reflexivity.
Qed.

(** A group that is mentioned answers the test, one that is not fails it. *)
Lemma group_hit_true (text lv : string) (ks : list string) :
  mentions ks text -> any_keyword text {| level := lv; keywords := ks |} = true.
Proof.
  intros H. now apply (proj2 (any_keyword_spec text {| level := lv; keywords := ks |})).
Qed.

Lemma group_miss_false (text lv : string) (ks : list string) :
  ~ mentions ks text -> any_keyword text {| level := lv; keywords := ks |} = false.
Proof.
  intros H. now apply (proj2 (any_keyword_false text {| level := lv; keywords := ks |})).
Qed.

Ltac group_hit H := rewrite (group_hit_true _ _ _ H).
Ltac group_miss H := rewrite (group_miss_false _ _ _ H).

(** C2. [rule_based_triage] lower-cases the text and answers with the first
    of the groups Critical, Urgent, Moderate, Low (in this order) one of whose
    keywords occurs anywhere in the lower-cased text, and with Moderate when no
    keyword occurs. A text with a Critical and a Low keyword is Critical, as is
    "seizure and tiredness". *)
Theorem rule_based_triage_priority :
  (forall s, mentions critical_keywords (PyStr.lower s) ->
             rule_based_triage s = "Critical")
  /\ (forall s, ~ mentions critical_keywords (PyStr.lower s) ->
                mentions urgent_keywords (PyStr.lower s) ->
                rule_based_triage s = "Urgent")
  /\ (forall s, ~ mentions critical_keywords (PyStr.lower s) ->
                ~ mentions urgent_keywords (PyStr.lower s) ->
                mentions moderate_keywords (PyStr.lower s) ->
                rule_based_triage s = "Moderate")
  /\ (forall s, ~ mentions critical_keywords (PyStr.lower s) ->
                ~ mentions urgent_keywords (PyStr.lower s) ->
                ~ mentions moderate_keywords (PyStr.lower s) ->
                mentions low_keywords (PyStr.lower s) ->
                rule_based_triage s = "Low")
  /\ (forall s, ~ mentions critical_keywords (PyStr.lower s) ->
                ~ mentions urgent_keywords (PyStr.lower s) ->
                ~ mentions moderate_keywords (PyStr.lower s) ->
                ~ mentions low_keywords (PyStr.lower s) ->
                rule_based_triage s = "Moderate")
  /\ (forall s, mentions critical_keywords (PyStr.lower s) ->
                mentions low_keywords (PyStr.lower s) ->
                rule_based_triage s = "Critical")
  /\ (forall s, mentions critical_keywords s ->
                mentions low_keywords s ->
                rule_based_triage s = "Critical")
  /\ rule_based_triage "seizure and tiredness" = "Critical".
Proof.
  repeat split; try reflexivity; intros s; rewrite rule_based_triage_unfold; cbv zeta.
  - intros C. now group_hit C.
  - intros C U. group_miss C. now group_hit U.
  - intros C U Mo. group_miss C. group_miss U. now group_hit Mo.
  - intros C U Mo L. group_miss C. group_miss U. group_miss Mo. now group_hit L.
  - intros C U Mo L. group_miss C. group_miss U. group_miss Mo. now group_miss L.
  - intros C _. now group_hit C.
  - intros C _. apply mentions_lower in C; [now group_hit C|].
    intros k Hin. apply keywords_lower_case. apply in_or_app. now left.
Qed.

(** The priority rule at work: the Critical keyword comes last in the text
    and in upper case, the Low keyword first. *)
Lemma rule_based_triage_priority_witness :
  rule_based_triage "Tiredness, then a SEIZURE" = "Critical".
Proof.
  apply (proj1 (proj2 (proj2 (proj2 (proj2 (proj2 rule_based_triage_priority)))))).
  - exists "seizure". split; [simpl; tauto|].
    exists "tiredness, then a ", EmptyString. reflexivity.
  - exists "tiredness". split; [simpl; tauto|].
    exists EmptyString, ", then a seizure". reflexivity.
Defined.

(** C9. [rule_based_triage] is total: for every string it answers with one
    of the four labels, each of the four is an answer, and the empty string
    is Moderate. *)
Theorem rule_based_triage_total :
  (forall s, exists l, rule_based_triage s = l /\ In l severity_labels)
  /\ Forall (fun l => exists s, rule_based_triage s = l) severity_labels
  /\ rule_based_triage "" = "Moderate"
  /\ rule_based_triage "patient feels generally unwell" = "Moderate".
Proof.
  split; [|split; [|split; reflexivity]].
  - intros s. exists (rule_based_triage s). split; [reflexivity|].
    apply rule_based_triage_label.
  - repeat constructor.
    + now exists "coma".
    + now exists "vomiting".
    + now exists "headache".
    + now exists "tiredness".
Qed.

(** ** The adapter and the orchestrator *)

Ltac unfold_m :=
  cbv beta iota delta
    [try_except bind ret raise lift emit print first_row getitem] in *.

(** What [call_groq] does, by the provider's answer. *)
Lemma call_groq_eq (w : World) (text : string) (tr : list event) :
  call_groq w text tr =
    (match groq_complete w (user_message text) with
     | Raise e => Raise (Exception ("Groq API error: " ++ exn_str e))
     | Ok content =>
         if PyStr.truthy (PyStr.strip content)
         then Ok (extract_level (PyStr.strip content))
         else Raise (Exception "Groq API error: No response from Groq AI")
     end, (tr ++ [EvGroq (user_message text)])%list).
Proof.
  unfold call_groq, groq_request. unfold_m.
  destruct (groq_complete w (user_message text)) as [content|e]; [|reflexivity].
  destruct (PyStr.truthy (PyStr.strip content)); reflexivity.
Qed.

Lemma choose_level_rules (w : World) (text : string) (tr : list event) :
  choose_level w text false tr = (Ok (rule_based_triage text), tr).
Proof. reflexivity. Qed.

Lemma choose_level_ai_ok (w : World) (text l : string) (tr tr1 : list event) :
  call_groq w text tr = (Ok l, tr1) ->
  choose_level w text true tr = (Ok l, tr1).
Proof. intros H. unfold choose_level. unfold_m. now rewrite H. Qed.

Lemma choose_level_ai_fails (w : World) (text : string) (e : exn) (tr tr1 : list event) :
  call_groq w text tr = (Raise e, tr1) ->
  choose_level w text true tr =
    (Ok (rule_based_triage text),
     (tr1 ++ [EvPrint ("AI failed, using rule-based fallback: " ++ exn_str e)])%list).
Proof. intros H. unfold choose_level. unfold_m. now rewrite H. Qed.

Lemma choose_level_total (w : World) (text : string) (use_ai : bool) (tr : list event) :
  exists l tr1, choose_level w text use_ai tr = (Ok l, tr1).
Proof.
  destruct use_ai; [|now eexists _, _].
  destruct (call_groq w text tr) as [[l|e] tr1] eqn:E.
  - eexists _, _. apply choose_level_ai_ok. exact E.
  - eexists _, _. apply choose_level_ai_fails. exact E.
Qed.

(** Storing a result: the insert, and a log line when it fails; the provider
    is not called. *)
Lemma store_triage_total (w : World) (text label : string)
    (info : list (string * value)) (use_ai : bool) (tr : list event) :
  exists r evs,
    store_triage w text label info use_ai tr = (Ok r, (tr ++ evs)%list)
    /\ triage_level r = label /\ no_groq evs.
Proof.
  unfold store_triage, insert. unfold_m.
  destruct (store_insert w "triage" _) as [[|row rows]|e];
    [| destruct (row !! "id") as [id|];
       [destruct (row !! "created_at") as [created|] |] |];
    eexists _, _; rewrite <- ?app_assoc;
    (split; [reflexivity | split; [reflexivity|]]);
    intros m; simpl; intuition discriminate.
Qed.

Lemma store_triage_insert_fails (w : World) (text label : string)
    (info : list (string * value)) (use_ai : bool) (tr : list event) (e : exn) :
  store_insert w "triage" (triage_record text label info use_ai) = Raise e ->
  store_triage w text label info use_ai tr =
    (Ok {| triage_level := label;
           record_id := VNone;
           timestamp := VStr (clock_now w);
           data := None;
           error := Some "Failed to store in database" |},
     (tr ++ [EvInsert "triage" (triage_record text label info use_ai);
             EvPrint ("Error storing triage data: " ++ exn_str e)])%list).
Proof.
  intros H. unfold store_triage, insert. unfold_m. rewrite H.
  now rewrite <- app_assoc.
Qed.

Lemma store_triage_insert_ok (w : World) (text label : string)
    (info : list (string * value)) (use_ai : bool) (tr : list event)
    (row : gmap string value) (rest : list (gmap string value)) (id created : value) :
  store_insert w "triage" (triage_record text label info use_ai) = Ok (row :: rest) ->
  row !! "id" = Some id ->
  row !! "created_at" = Some created ->
  store_triage w text label info use_ai tr =
    (Ok {| triage_level := label;
           record_id := id;
           timestamp := created;
           data := Some row;
           error := None |},
     (tr ++ [EvInsert "triage" (triage_record text label info use_ai)])%list).
Proof.
  intros H Hid Hcr. unfold store_triage, insert. unfold_m. now rewrite H, Hid, Hcr.
Qed.

Lemma triage_patient_eq (w : World) (text : string)
    (info : option (list (string * value))) (use_ai : bool)
    (tr tr1 : list event) (label : string) :
  choose_level w text use_ai tr = (Ok label, tr1) ->
  triage_patient w text info use_ai tr =
    store_triage w text label (or_empty info) use_ai tr1.
Proof. intros H. unfold triage_patient, bind. now rewrite H. Qed.

(** C1. With [use_ai] true and the adapter raising, [triage_patient] returns
    normally with the label of [rule_based_triage] on the same text, the
    failure only being logged; with [use_ai] false it returns that label and
    the provider is not called. With the adapter failing, "mild headache" is
    Moderate, the label of [rule_based_triage "mild headache"]. *)
Theorem triage_patient_ai_fallback (w : World) (text : string)
    (info : option (list (string * value))) (tr : list event) :
  (forall e tr1,
      call_groq w text tr = (Raise e, tr1) ->
      exists r tr',
        triage_patient w text info true tr = (Ok r, tr')
        /\ triage_level r = rule_based_triage text
        /\ In (EvPrint ("AI failed, using rule-based fallback: " ++ exn_str e)) tr')
  /\ (exists r evs,
        triage_patient w text info false tr = (Ok r, (tr ++ evs)%list)
        /\ triage_level r = rule_based_triage text
        /\ no_groq evs)
  /\ (forall e tr1,
        call_groq w "mild headache" tr = (Raise e, tr1) ->
        exists r tr',
          triage_patient w "mild headache" (Some []) true tr = (Ok r, tr')
          /\ triage_level r = "Moderate"
          /\ rule_based_triage "mild headache" = "Moderate").
Proof.
  assert (Hfall : forall text info e tr1,
             call_groq w text tr = (Raise e, tr1) ->
             exists r tr',
               triage_patient w text info true tr = (Ok r, tr')
               /\ triage_level r = rule_based_triage text
               /\ In (EvPrint ("AI failed, using rule-based fallback: " ++ exn_str e)) tr').
  { clear text info. intros text info e tr1 H.
    apply choose_level_ai_fails in H.
    rewrite (triage_patient_eq _ _ _ _ _ _ _ H).
    destruct (store_triage_total w text (rule_based_triage text) (or_empty info) true
                (tr1 ++ [EvPrint ("AI failed, using rule-based fallback: " ++ exn_str e)])%list)
      as (r & evs & -> & Hl & _).
    exists r. eexists. split; [reflexivity | split; [exact Hl|]].
    apply in_or_app. left. apply in_or_app. right. now left. }
  split; [|split].
  - apply Hfall.
  - rewrite (triage_patient_eq _ _ _ _ _ _ _ (choose_level_rules w text tr)).
    apply store_triage_total.
  - intros e tr1 H. destruct (Hfall _ (Some []) _ _ H) as (r & tr' & Hr & Hl & _).
    exists r, tr'. split; [exact Hr | split; [rewrite Hl|]]; reflexivity.
Qed.

(** The provider is unreachable and the store is up. *)
Lemma triage_patient_ai_fallback_witness :
  exists r tr',
    triage_patient (sample_world groq_down true no_records) "mild headache"
      (Some []) true [] = (Ok r, tr')
    /\ triage_level r = "Moderate"
    /\ rule_based_triage "mild headache" = "Moderate".
Proof.
  eapply (proj2 (proj2 (triage_patient_ai_fallback
                          (sample_world groq_down true no_records)
                          "mild headache" (Some []) []))).
  reflexivity.
Defined.

(** C5. Whatever label has been chosen for the text, a failing insert leaves
    it as the returned label, with no record id, the error marker and the
    time of the wall clock; a successful insert gives the id and the creation
    time of the row that the store returned. *)
Theorem triage_patient_persistence (w : World) (text : string)
    (info : option (list (string * value))) (use_ai : bool) (tr : list event) :
  exists label tr1,
    choose_level w text use_ai tr = (Ok label, tr1)
    /\ (forall e,
          store_insert w "triage" (triage_record text label (or_empty info) use_ai)
            = Raise e ->
          exists tr',
            triage_patient w text info use_ai tr =
              (Ok {| triage_level := label;
                     record_id := VNone;
                     timestamp := VStr (clock_now w);
                     data := None;
                     error := Some "Failed to store in database" |}, tr'))
    /\ (forall row rest id created,
          store_insert w "triage" (triage_record text label (or_empty info) use_ai)
            = Ok (row :: rest) ->
          row !! "id" = Some id ->
          row !! "created_at" = Some created ->
          exists tr',
            triage_patient w text info use_ai tr =
              (Ok {| triage_level := label;
                     record_id := id;
                     timestamp := created;
                     data := Some row;
                     error := None |}, tr')).
Proof.
  destruct (choose_level_total w text use_ai tr) as (label & tr1 & Hc).
  exists label, tr1. split; [exact Hc|].
  rewrite (triage_patient_eq _ _ _ _ _ _ _ Hc). split.
  - intros e He. eexists. apply store_triage_insert_fails. exact He.
  - intros row rest id created Hins Hid Hcr. eexists.
    apply store_triage_insert_ok with (rest := rest); assumption.
Qed.

(** The store is unreachable while the provider answers "Urgent". *)
Lemma triage_patient_persistence_witness :
  exists tr',
    triage_patient (sample_world (groq_says "Urgent") false no_records)
      "sudden blurred vision" None true [] =
      (Ok {| triage_level := "Urgent";
             record_id := VNone;
             timestamp := VStr "2024-05-01T10:00:01.000000";
             data := None;
             error := Some "Failed to store in database" |}, tr').
Proof.
  destruct (triage_patient_persistence
              (sample_world (groq_says "Urgent") false no_records)
              "sudden blurred vision" None true [])
    as (label & tr1 & Hc & Hfail & _).
  injection Hc as <- _.
  exact (Hfail (Exception "connection refused") eq_refl).
Defined.

(** ** The vitals evaluator *)

Lemma vitals_data_of_lookup (p s d : Z) :
  vitals_data_of p s d !! "pulse" = Some p
  /\ vitals_data_of p s d !! "systolicBP" = Some s
  /\ vitals_data_of p s d !! "diastolicBP" = Some d.
Proof. repeat split; reflexivity. Qed.

Lemma compute_flags_eq (p s d : Z) (tr : list event) :
  compute_flags (vitals_data_of p s d) tr =
    (Ok {| pulse_flag := (p <? 60)%Z || (p >? 100)%Z;
           systolic_flag := (s <? 90)%Z || (s >? 160)%Z;
           diastolic_flag := (d <? 60)%Z || (d >? 100)%Z;
           any_flag := ((p <? 60)%Z || (p >? 100)%Z)
                       || ((s <? 90)%Z || (s >? 160)%Z)
                       || ((d <? 60)%Z || (d >? 100)%Z) |}, tr).
Proof.
  destruct (vitals_data_of_lookup p s d) as (Hp & Hs & Hd).
  unfold compute_flags. unfold_m. now rewrite Hp, Hs, Hd.
Qed.

Lemma compute_flags_consistent (vitals : gmap string Z) (tr tr1 : list event)
    (f : VitalsFlags) :
  compute_flags vitals tr = (Ok f, tr1) -> flags_consistent f /\ tr1 = tr.
Proof.
  unfold compute_flags. unfold_m.
  destruct (vitals !! "pulse"); [|discriminate].
  destruct (vitals !! "systolicBP"); [|discriminate].
  destruct (vitals !! "diastolicBP"); [|discriminate].
  intros [= <- <-]. split; reflexivity.
Qed.

Lemma vitals_record_flags (p s d : Z) (f : VitalsFlags) (info : list (string * value)) :
  record_flags (vitals_record p s d f info) = Some f.
Proof. destruct f. reflexivity. Qed.

(** [flag_vitals] after the flags are computed: it returns them, and every
    row it sends to the store carries them. *)
Lemma flag_vitals_flags (w : World) (vitals : gmap string Z)
    (info : option (list (string * value))) (tr : list event) (f : VitalsFlags) :
  compute_flags vitals tr = (Ok f, tr) ->
  exists r evs,
    flag_vitals w vitals info tr = (Ok r, (tr ++ evs)%list)
    /\ flags r = f
    /\ forall table record, In (EvInsert table record) evs -> record_flags record = Some f.
Proof.
  intros Hf.
  assert (Hrec : forall p s d table record,
             EvInsert "vitals" (vitals_record p s d f (or_empty info))
               = EvInsert table record ->
             record_flags record = Some f).
  { intros p s d table record [= _ <-]. apply vitals_record_flags. }
  unfold flag_vitals, bind at 1. rewrite Hf. unfold insert. unfold_m.
  destruct (vitals !! "pulse") as [p|].
  2:{ exists {| flags := f; vitals_record_id := VNone;
                vitals_timestamp := VStr (clock_now w); vitals_data := None;
                vitals_error := Some "Failed to store in database" |}.
      eexists. split; [reflexivity | split; [reflexivity|]].
      intros table record [H|[]]. discriminate. }
  destruct (vitals !! "systolicBP") as [s|].
  2:{ eexists _, _. split; [reflexivity | split; [reflexivity|]].
      intros table record [H|[]]. discriminate. }
  destruct (vitals !! "diastolicBP") as [d|].
  2:{ eexists _, _. split; [reflexivity | split; [reflexivity|]].
      intros table record [H|[]]. discriminate. }
  destruct (store_insert w "vitals" _) as [[|row rows]|e];
    [| destruct (row !! "id") as [id|];
       [destruct (row !! "created_at") as [created|] |] |];
    eexists _, _; rewrite <- ?app_assoc;
    (split; [reflexivity | split; [reflexivity|]]);
    intros table record; simpl; intros H;
    repeat (destruct H as [H|H]); try discriminate; try contradiction;
    eauto.
Qed.

Lemma flag_vitals_ok (w : World) (vitals : gmap string Z)
    (info : option (list (string * value))) (tr tr' : list event) (r : VitalsResult) :
  flag_vitals w vitals info tr = (Ok r, tr') ->
  compute_flags vitals tr = (Ok (flags r), tr).
Proof.
  intros H. destruct (compute_flags vitals tr) as [[f|e] tr1] eqn:Hf.
  - destruct (compute_flags_consistent _ _ _ _ Hf) as [_ ->].
    destruct (flag_vitals_flags w vitals info tr f Hf) as (r' & evs & Hr & Hfl & _).
    rewrite Hr in H. injection H as <- _. now rewrite Hfl.
  - unfold flag_vitals, bind at 1 in H. rewrite Hf in H. discriminate.
Qed.

(** C3. On the dictionary built from any three integers (those of the valid
    ranges included) [flag_vitals] returns, and its flags are the threshold
    tests: pulse below 60 or above 100, systolic below 90 or above 160,
    diastolic below 60 or above 100. Pulse 60 is not flagged and 59 is;
    systolic 160 is not flagged and 161 is. *)
Theorem flag_vitals_thresholds (w : World) (info : option (list (string * value)))
    (tr : list event) :
  (forall pulse systolicBP diastolicBP : Z,
      exists r tr',
        flag_vitals w (vitals_data_of pulse systolicBP diastolicBP) info tr = (Ok r, tr')
        /\ (pulse_flag (flags r) = true <-> (pulse < 60 \/ pulse > 100)%Z)
        /\ (systolic_flag (flags r) = true <-> (systolicBP < 90 \/ systolicBP > 160)%Z)
        /\ (diastolic_flag (flags r) = true
            <-> (diastolicBP < 60 \/ diastolicBP > 100)%Z))
  /\ (forall systolicBP diastolicBP : Z,
        (exists r tr',
            flag_vitals w (vitals_data_of 60 systolicBP diastolicBP) info tr = (Ok r, tr')
            /\ pulse_flag (flags r) = false)
        /\ (exists r tr',
               flag_vitals w (vitals_data_of 59 systolicBP diastolicBP) info tr = (Ok r, tr')
               /\ pulse_flag (flags r) = true))
  /\ (forall pulse diastolicBP : Z,
        (exists r tr',
            flag_vitals w (vitals_data_of pulse 160 diastolicBP) info tr = (Ok r, tr')
            /\ systolic_flag (flags r) = false)
        /\ (exists r tr',
               flag_vitals w (vitals_data_of pulse 161 diastolicBP) info tr = (Ok r, tr')
               /\ systolic_flag (flags r) = true)).
Proof.
  assert (Hrun : forall p s d,
             exists r tr',
               flag_vitals w (vitals_data_of p s d) info tr = (Ok r, tr')
               /\ pulse_flag (flags r) = (p <? 60)%Z || (p >? 100)%Z
               /\ systolic_flag (flags r) = (s <? 90)%Z || (s >? 160)%Z
               /\ diastolic_flag (flags r) = (d <? 60)%Z || (d >? 100)%Z).
  { intros p s d.
    destruct (flag_vitals_flags w _ info tr _ (compute_flags_eq p s d tr))
      as (r & evs & Hr & Hfl & _).
    exists r. eexists. split; [exact Hr|]. rewrite Hfl. repeat split. }
  split; [|split].
  - intros p s d. destruct (Hrun p s d) as (r & tr' & Hr & Hp & Hs & Hd).
    exists r, tr'. split; [exact Hr|]. rewrite Hp, Hs, Hd.
    rewrite !orb_true_iff, !Z.ltb_lt, !Z.gtb_gt. tauto.
  - intros s d. split.
    + destruct (Hrun 60%Z s d) as (r & tr' & Hr & Hp & _). now exists r, tr'.
    + destruct (Hrun 59%Z s d) as (r & tr' & Hr & Hp & _). now exists r, tr'.
  - intros p d. split.
    + destruct (Hrun p 160%Z d) as (r & tr' & Hr & _ & Hs & _). now exists r, tr'.
    + destruct (Hrun p 161%Z d) as (r & tr' & Hr & _ & Hs & _). now exists r, tr'.
Qed.

(** C4. The [any_flag] that [flag_vitals] returns is the disjunction of the
    three other flags, for every dictionary on which it returns; the row sent
    to the store carries the same four flags; and on the dictionary built from
    three integers it does return. *)
Theorem flag_vitals_any_flag (w : World) (info : option (list (string * value)))
    (tr : list event) :
  (forall vitals r tr',
      flag_vitals w vitals info tr = (Ok r, tr') ->
      any_flag (flags r)
        = pulse_flag (flags r) || systolic_flag (flags r) || diastolic_flag (flags r)
      /\ exists evs,
           tr' = (tr ++ evs)%list
           /\ forall table record,
                In (EvInsert table record) evs -> record_flags record = Some (flags r))
  /\ (forall pulse systolicBP diastolicBP : Z,
        exists r tr',
          flag_vitals w (vitals_data_of pulse systolicBP diastolicBP) info tr = (Ok r, tr')
          /\ (any_flag (flags r) = true
              <-> pulse_flag (flags r) = true \/ systolic_flag (flags r) = true
                  \/ diastolic_flag (flags r) = true)).
Proof.
  assert (Hinv : forall vitals r tr',
             flag_vitals w vitals info tr = (Ok r, tr') ->
             any_flag (flags r)
               = pulse_flag (flags r) || systolic_flag (flags r) || diastolic_flag (flags r)
             /\ exists evs,
                  tr' = (tr ++ evs)%list
                  /\ forall table record,
                       In (EvInsert table record) evs ->
                       record_flags record = Some (flags r)).
  { intros vitals r tr' H. pose proof (flag_vitals_ok _ _ _ _ _ _ H) as Hf.
    split; [apply (compute_flags_consistent _ _ _ _ Hf)|].
    destruct (flag_vitals_flags w vitals info tr _ Hf) as (r' & evs & Hr & _ & Hev).
    rewrite Hr in H. injection H as _ <-. now exists evs. }
  split; [exact Hinv|].
  intros p s d.
  destruct (flag_vitals_flags w _ info tr _ (compute_flags_eq p s d tr))
    as (r & evs & Hr & _ & _).
  exists r. eexists. split; [exact Hr|].
  destruct (Hinv _ _ _ Hr) as [-> _]. rewrite !orb_true_iff. tauto.
Qed.

(** The end-to-end example of the specification: a valid reading, the store
    being up. *)
Example flag_vitals_end_to_end :
  valid_vitals 120 180 95
  /\ exists r tr',
       flag_vitals (sample_world groq_down true no_records)
         (vitals_data_of 120 180 95) None [] = (Ok r, tr')
       /\ flags r = {| pulse_flag := true; systolic_flag := true;
                       diastolic_flag := false; any_flag := true |}
       /\ vitals_record_id r = VInt 1
       /\ vitals_error r = None.
Proof.
  split; [unfold valid_vitals; lia|].
  eexists _, _. split; [reflexivity|]. repeat split.
Qed.

(** The same reading, through the invariant. *)
Lemma flag_vitals_any_flag_witness :
  any_flag {| pulse_flag := true; systolic_flag := true;
              diastolic_flag := false; any_flag := true |}
  = true || true || false
  /\ exists evs : list event,
       [EvInsert "vitals"
          (vitals_record 120 180 95
             {| pulse_flag := true; systolic_flag := true;
                diastolic_flag := false; any_flag := true |} [])]
       = ([] ++ evs)%list
       /\ forall table record,
            In (EvInsert table record) evs ->
            record_flags record
            = Some {| pulse_flag := true; systolic_flag := true;
                      diastolic_flag := false; any_flag := true |}.
Proof.
  exact (proj1 (flag_vitals_any_flag (sample_world groq_down true no_records) None [])
           (vitals_data_of 120 180 95) _ _ eq_refl).
Defined.

(** ** Reading the provider's response *)

Lemma find_level_eq (ls : list string) :
  find_level ls = option_map normalise (List.find matches_label ls).
Proof.
  induction ls as [|l ls IH]; cbn [find_level List.find]; [reflexivity|].
  cbv zeta. fold (matches_label l). destruct (matches_label l); [reflexivity | exact IH].
Qed.

Lemma find_nonblank_eq (ls : list string) :
  find_nonblank ls = option_map normalise (List.find nonblank ls).
Proof.
  induction ls as [|l ls IH]; cbn [find_nonblank List.find]; [reflexivity|].
  fold (nonblank l). destruct (nonblank l); [reflexivity | exact IH].
Qed.

Lemma find_first (P : string -> bool) (ls : list string) (x : string) :
  List.find P ls = Some x ->
  exists pre post,
    ls = (pre ++ x :: post)%list /\ P x = true /\ Forall (fun l => P l = false) pre.
Proof.
  induction ls as [|l ls IH]; simpl; [discriminate|].
  destruct (P l) eqn:Hl.
  - intros [= ->]. exists [], ls. now repeat split.
  - intros H. destruct (IH H) as (pre & post & -> & Hx & Hpre).
    exists (l :: pre), post. repeat split; [exact Hx | now constructor].
Qed.

Lemma find_nothing (P : string -> bool) (ls : list string) :
  List.find P ls = None -> Forall (fun l => P l = false) ls.
Proof.
  induction ls as [|l ls IH]; simpl; [constructor|].
  destruct (P l) eqn:Hl; [discriminate | intros H; constructor; auto].
Qed.

(** Scanning the reversed list finds the last element that qualifies. *)
Lemma find_reversed (P : string -> bool) (lines : list string) :
  match List.find P (rev lines) with
  | Some x => last_such P lines x
  | None => Forall (fun l => P l = false) lines
  end.
Proof.
  destruct (List.find P (rev lines)) as [x|] eqn:E.
  - apply find_first in E as (pre & post & Hl & Hx & Hpre).
    exists (rev post), (rev pre). repeat split; [|exact Hx|].
    + rewrite <- (rev_involutive lines), Hl, rev_app_distr. simpl.
      now rewrite <- app_assoc.
    + apply List.Forall_forall. intros l Hin. apply in_rev in Hin.
      revert l Hin. now apply List.Forall_forall.
  - apply find_nothing in E. apply List.Forall_forall. intros l Hin.
    apply in_rev in Hin. revert l Hin. now apply List.Forall_forall.
Qed.


Lemma valid_level_cases (x : string) :
  PyStr.mem x valid_levels = true <->
  x = "critical" \/ x = "urgent" \/ x = "moderate" \/ x = "low".
Proof.
  unfold PyStr.mem, valid_levels. cbn [existsb].
  rewrite !orb_true_iff, !String.eqb_eq. intuition discriminate.
Qed.

(** A matching line normalises to the label it matches. *)
Lemma matches_label_normalise (line : string) :
  matches_label line = true -> In (normalise line) severity_labels.
Proof.
  unfold matches_label, normalise. intros H.
  apply valid_level_cases in H as [-> | [-> | [-> | ->]]]; simpl; tauto.
Qed.


(** What [extract_level] returns on a text that is not white space only. *)
Lemma extract_level_spec (result : string) :
  all_space result = false ->
  exists line,
    extract_level result = normalise line
    /\ (last_such matches_label (PyStr.split_lines result) line
        \/ (Forall (fun l => matches_label l = false) (PyStr.split_lines result)
            /\ last_such nonblank (PyStr.split_lines result) line)).
Proof.
  intros Hs. unfold extract_level. cbv zeta.
  rewrite find_level_eq, find_nonblank_eq.
  pose proof (find_reversed matches_label (PyStr.split_lines result)) as Hm.
  pose proof (find_reversed nonblank (PyStr.split_lines result)) as Hn.
  destruct (List.find matches_label _) as [x|]; simpl.
  - exists x. split; [reflexivity | now left].
  - destruct (List.find nonblank _) as [y|]; simpl.
    + exists y. split; [reflexivity | now right].
    + exfalso. apply PyStrFacts.nonblank_line in Hs.
      apply List.Exists_exists in Hs as (l & Hin & Hl).
      apply (proj1 (List.Forall_forall _ _) Hn) in Hin. unfold nonblank in Hin. congruence.
Qed.

(** C6, as the code has it. A provider exception, and a response that is
    empty once stripped, make [call_groq] raise. Otherwise it returns a line of
    the stripped response in normal form (stripped, lower-cased, first
    character upper-cased): the last line that is one of the four labels once
    stripped and case ignored, the result then being that label; or, when no
    line is such a label, the last line that is not blank. *)
Theorem call_groq_answer (w : World) (text : string) (tr : list event) :
  match groq_complete w (user_message text) with
  | Raise e =>
      fst (call_groq w text tr) = Raise (Exception ("Groq API error: " ++ exn_str e))
  | Ok content =>
      if PyStr.truthy (PyStr.strip content) then
        exists line,
          fst (call_groq w text tr) = Ok (normalise line)
          /\ ((last_such matches_label (PyStr.split_lines (PyStr.strip content)) line
               /\ In (normalise line) severity_labels)
              \/ (Forall (fun l => matches_label l = false)
                    (PyStr.split_lines (PyStr.strip content))
                  /\ last_such nonblank (PyStr.split_lines (PyStr.strip content)) line))
      else
        fst (call_groq w text tr)
        = Raise (Exception "Groq API error: No response from Groq AI")
  end.
Proof.
  rewrite call_groq_eq. destruct (groq_complete w (user_message text)) as [content|e];
    [|reflexivity].
  destruct (PyStr.truthy (PyStr.strip content)) eqn:Ht; [|reflexivity].
  destruct (extract_level_spec _ (PyStrFacts.strip_nonempty _ Ht)) as (line & Hl & Hc).
  exists line. simpl. split; [now rewrite Hl|].
  destruct Hc as [Hm | Hn]; [left | now right].
  split; [exact Hm|]. destruct Hm as (_ & _ & _ & Hm & _).
  now apply matches_label_normalise.
Qed.

(** A response with reasoning before the label and blank lines after it. *)
Lemma call_groq_answer_witness :
  exists line,
    fst (call_groq (sample_world (groq_says reply_reasoned) true no_records)
           "very thirsty, dark urine" [])
    = Ok (normalise line)
    /\ ((last_such matches_label
           (PyStr.split_lines (PyStr.strip reply_reasoned)) line
         /\ In (normalise line) severity_labels)
        \/ (Forall (fun l => matches_label l = false)
              (PyStr.split_lines (PyStr.strip reply_reasoned))
            /\ last_such nonblank
                 (PyStr.split_lines (PyStr.strip reply_reasoned)) line)).
Proof.
  exact (call_groq_answer (sample_world (groq_says reply_reasoned) true no_records)
           "very thirsty, dark urine" []).
Defined.

(** C6 as stated fails. The response "Triage level:" / "HIGH" has no label
    line and its last non-empty line is "HIGH", but "High" is returned. In the
    response "Urgent" / " low " / "see a doctor" the only line that equals a
    label up to case is "Urgent", but "Low" is returned, from the padded
    line. *)
Lemma call_groq_not_verbatim :
  PyStr.split_lines (PyStr.strip reply_high) = ["Triage level:"; "HIGH"]
  /\ matches_label "Triage level:" = false
  /\ matches_label "HIGH" = false
  /\ nonblank "HIGH" = true
  /\ fst (call_groq (sample_world (groq_says reply_high) true no_records)
            "chest pain" []) = Ok "High"
  /\ fst (call_groq (sample_world (groq_says reply_high) true no_records)
            "chest pain" []) <> Ok "HIGH"
  /\ PyStr.split_lines (PyStr.strip reply_padded) = ["Urgent"; " low "; "see a doctor"]
  /\ equals_label_ignoring_case "Urgent" = true
  /\ equals_label_ignoring_case " low " = false
  /\ equals_label_ignoring_case "see a doctor" = false
  /\ fst (call_groq (sample_world (groq_says reply_padded) true no_records)
            "chest pain" []) = Ok "Low"
  /\ fst (call_groq (sample_world (groq_says reply_padded) true no_records)
            "chest pain" []) <> Ok "Urgent".
Proof. repeat split; try reflexivity; discriminate. Qed.





(** ** Validation of a triage request *)

Lemma has_pii_spec (raw : string) :
  has_pii raw = true
  <-> Exists (fun marker => PyStr.occurs_in marker (PyStr.lower raw)) pii_indicators.
Proof.
  unfold has_pii. rewrite existsb_exists, List.Exists_exists.
  split; intros (m & Hin & H); exists m; (split; [exact Hin|]);
    now apply PyStrFacts.contains_spec.
Qed.

Lemma TriageRequest_symptoms_eq (raw : string) :
  TriageRequest_symptoms raw =
    if (len raw <? 5)%Z then
      Raise (ValueError "ensure this value has at least 5 characters")
    else if (2000 <? len raw)%Z then
      Raise (ValueError "ensure this value has at most 2000 characters")
    else if negb (PyStr.truthy (PyStr.strip raw)) then
      Raise (ValueError "Symptoms cannot be empty")
    else if has_pii raw then
      Raise (ValueError "Symptoms appear to contain sensitive information")
    else Ok (PyStr.strip raw).
Proof.
  unfold TriageRequest_symptoms, check_length, validate_symptoms.
  destruct (len raw <? 5)%Z; [reflexivity|].
  destruct (2000 <? len raw)%Z; reflexivity.
Qed.




(** ** The statistics *)



Lemma flag_percentage_of_empty (flagged : Z) (tr : list event) :
  flag_percentage_of flagged [] tr = (Ok (round2 0), tr).
Proof. reflexivity. Qed.

Lemma flag_percentage_of_cons (flagged : Z) (record : gmap string value)
    (records : list (gmap string value)) (tr : list event) :
  flag_percentage_of flagged (record :: records) tr =
    (Ok (round2 (inject_Z flagged
                 / inject_Z (Z.of_nat (List.length (record :: records)))
                 * inject_Z 100)), tr).
Proof. reflexivity. Qed.


Lemma count_levels_outcome (rs : list (gmap string value)) :
  forall (d : list (value * Z)) (tr : list event),
    (exists d', count_levels d rs tr = (Ok d', tr))
    \/ count_levels d rs tr = (Raise (TypeError "unhashable type: 'dict'"), tr).
Proof.
  induction rs as [|r rs IH]; intros d tr; cbn [count_levels].
  - left. now eexists.
  - cbv zeta. destruct (hashable _); [apply IH | now right].
Qed.




Example stats_sample :
  exists tr',
    get_triage_stats (sample_world groq_down true sample_records) [] =
      (Ok (Http200 {| total_assessments := 3;
                      levels_breakdown := [(VStr "Urgent", 2%Z); (VStr "Low", 1%Z)];
                      total_checks := 3;
                      flagged_cases := 1;
                      flag_percentage := Qmake 3333 100;
                      stats_timestamp := "2024-05-01T10:00:01.000000" |}), tr').
Proof. eexists. reflexivity. Qed.

(** * Further properties *)

(** ** Reading recent records *)

Lemma get_recent_records_eq (w : World) (table msg : string) (n : Z) (tr : list event) :
  try_except (select_recent w table n)
    (fun error => let! _ := print (msg ++ exn_str error) in ret []) tr
  = (Ok (rows_or_none (store_select w table n)),
     (tr ++ EvSelect table n ::
        match store_select w table n with
        | Ok _ => []
        | Raise e => [EvPrint (msg ++ exn_str e)]
        end)%list).
Proof.
  unfold select_recent. unfold_m.
  destruct (store_select w table n) as [rs|e]; simpl; [reflexivity|].
  now rewrite <- app_assoc.
Qed.

(** X1. [get_recent_triage_records] and [get_recent_vitals_records] never
    raise: they query their table once with the given limit and return the
    rows of the store, or the empty list, with a log line, when the store
    fails. *)
Theorem get_recent_records_safe (w : World) (n : Z) (tr : list event) :
  (exists evs,
      get_recent_triage_records w n tr
      = (Ok (rows_or_none (store_select w "triage" n)), (tr ++ evs)%list)
      /\ select_events evs = [("triage", n)]
      /\ insert_events evs = [] /\ groq_events evs = []
      /\ forall e, store_select w "triage" n = Raise e ->
                   In (EvPrint ("Error fetching triage records: " ++ exn_str e)) evs)
  /\ (exists evs,
        get_recent_vitals_records w n tr
        = (Ok (rows_or_none (store_select w "vitals" n)), (tr ++ evs)%list)
        /\ select_events evs = [("vitals", n)]
        /\ insert_events evs = [] /\ groq_events evs = []
        /\ forall e, store_select w "vitals" n = Raise e ->
                     In (EvPrint ("Error fetching vitals records: " ++ exn_str e)) evs).
Proof.
  split.
  - unfold get_recent_triage_records. rewrite get_recent_records_eq.
    eexists. split; [reflexivity|].
    destruct (store_select w "triage" n) as [rs|e]; repeat split; try reflexivity.
    + discriminate.
    + intros e' [= <-]. right. now left.
  - unfold get_recent_vitals_records. rewrite get_recent_records_eq.
    eexists. split; [reflexivity|].
    destruct (store_select w "vitals" n) as [rs|e]; repeat split; try reflexivity.
    + discriminate.
    + intros e' [= <-]. right. now left.
Qed.

(** The store cannot be read. *)
Lemma get_recent_records_safe_witness :
  In (EvPrint "Error fetching triage records: connection refused")
    (snd (get_recent_triage_records blind_world 5 [])).
Proof.
  destruct (proj1 (get_recent_records_safe blind_world 5 []))
    as (evs & Heq & _ & _ & _ & Hlog).
  rewrite Heq. simpl. exact (Hlog (Exception "connection refused") eq_refl).
Defined.

Lemma get_recent_eq (w : World)
    (fetch : World -> Z -> M (list (gmap string value)))
    (lp dp : string) (limit : Z) (tr tr' : list event)
    (rs : list (gmap string value)) :
  (1 <= limit <= 100)%Z ->
  fetch w limit tr = (Ok rs, tr') ->
  get_recent w fetch lp dp limit tr
  = (Ok (Reply {| records := rs;
                  count := Z.of_nat (List.length rs);
                  recent_timestamp := clock_now w |}), tr').
Proof.
  intros Hl Hf. unfold get_recent.
  destruct (Z.ltb_spec limit 1); [lia|].
  destruct (Z.gtb_spec limit 100); [lia|]. simpl.
  unfold_m. now rewrite Hf.
Qed.

(** X2. [get_recent_triage] and [get_recent_vitals] answer 400 without
    reading the store when the limit is below 1 or above 100; otherwise they
    read their table once with that limit and answer 200 with the rows (none
    when the store fails), their number as [count], and the time of the
    clock. They never answer 500. *)
Theorem get_recent_limit (w : World) (limit : Z) (tr : list event) :
  ((limit < 1 \/ limit > 100)%Z ->
   get_recent_triage w limit tr
   = (Ok (HTTPError 400 "Limit must be between 1 and 100"), tr)
   /\ get_recent_vitals w limit tr
      = (Ok (HTTPError 400 "Limit must be between 1 and 100"), tr))
  /\ ((1 <= limit <= 100)%Z ->
      (exists evs,
          get_recent_triage w limit tr
          = (Ok (Reply {| records := rows_or_none (store_select w "triage" limit);
                          count := Z.of_nat (List.length
                                     (rows_or_none (store_select w "triage" limit)));
                          recent_timestamp := clock_now w |}), (tr ++ evs)%list)
          /\ select_events evs = [("triage", limit)])
      /\ (exists evs,
             get_recent_vitals w limit tr
             = (Ok (Reply {| records := rows_or_none (store_select w "vitals" limit);
                             count := Z.of_nat (List.length
                                        (rows_or_none (store_select w "vitals" limit)));
                             recent_timestamp := clock_now w |}), (tr ++ evs)%list)
             /\ select_events evs = [("vitals", limit)])).
Proof.
  split.
  - intros Hl. unfold get_recent_triage, get_recent_vitals, get_recent.
    destruct (Z.ltb_spec limit 1); [now split|].
    destruct (Z.gtb_spec limit 100); [now split | lia].
  - intros Hl. split; eexists; (split; [apply get_recent_eq; [exact Hl|] |]).
    + unfold get_recent_triage_records. apply get_recent_records_eq.
    + now destruct (store_select w "triage" limit).
    + unfold get_recent_vitals_records. apply get_recent_records_eq.
    + now destruct (store_select w "vitals" limit).
Qed.

(** Limit 0 is refused; limit 2 gives the two rows of the store. *)
Lemma get_recent_limit_witness :
  get_recent_triage (sample_world groq_down true sample_records) 0 []
  = (Ok (HTTPError 400 "Limit must be between 1 and 100"), [])
  /\ exists evs,
       get_recent_vitals (sample_world groq_down true sample_records) 100 []
       = (Ok (Reply {| records := sample_records "vitals";
                       count := 3;
                       recent_timestamp := "2024-05-01T10:00:01.000000" |}),
          ([] ++ evs)%list)
       /\ select_events evs = [("vitals", 100%Z)].
Proof.
  split.
  - apply (proj1 (get_recent_limit (sample_world groq_down true sample_records) 0 [])).
    left. lia.
  - apply (proj2 (get_recent_limit (sample_world groq_down true sample_records) 100 [])).
    lia.
Defined.

(** ** The vitals request *)

Lemma check_range_ok (lo hi v : Z) :
  (lo <= v <= hi)%Z -> check_range lo hi v = Ok v.
Proof.
  intros H. unfold check_range.
  destruct (Z.ltb_spec v lo); [lia|]. destruct (Z.ltb_spec hi v); [lia|]. reflexivity.
Qed.

Lemma check_range_fails (lo hi v : Z) :
  ~ (lo <= v <= hi)%Z -> exists e, check_range lo hi v = Raise e.
Proof.
  intros H. unfold check_range.
  destruct (Z.ltb_spec v lo); [now eexists|].
  destruct (Z.ltb_spec hi v); [now eexists | lia].
Qed.

Lemma validate_blood_pressure_seen (v s : Z) (values : gmap string Z) :
  values !! "systolicBP" = Some s ->
  validate_blood_pressure v values
  = if (v >=? s)%Z
    then Raise (ValueError "Diastolic BP must be lower than systolic BP")
    else Ok v.
Proof. intros H. unfold validate_blood_pressure. now rewrite H. Qed.

Lemma validate_blood_pressure_unseen (v : Z) (values : gmap string Z) :
  values !! "systolicBP" = None -> validate_blood_pressure v values = Ok v.
Proof. intros H. unfold validate_blood_pressure. now rewrite H. Qed.

(** The errors of a vitals request, field by field. *)
Lemma VitalsRequest_errors (p s d : Z) :
  snd (VitalsRequest_fields p s d)
  = ((match check_range 30 250 p with
      | Ok _ => []
      | Raise e => [("pulse", exn_str e)]
      end
      ++ match check_range 60 300 s with
         | Ok _ => []
         | Raise e => [("systolicBP", exn_str e)]
         end)
     ++ match check_range 30 200 d with
        | Ok v =>
            match check_range 60 300 s with
            | Ok _ =>
                if (v >=? s)%Z
                then [("diastolicBP", "Diastolic BP must be lower than systolic BP")]
                else []
            | Raise _ => []
            end
        | Raise e => [("diastolicBP", exn_str e)]
        end)%list.
Proof.
  unfold VitalsRequest_fields, validate_field.
  destruct (check_range 30 250 p) as [vp|ep];
    destruct (check_range 60 300 s) as [vs|es] eqn:Hs;
    destruct (check_range 30 200 d) as [vd|ed]; cbn [fst snd];
    try reflexivity.
  all: try (rewrite validate_blood_pressure_unseen by reflexivity; reflexivity).
  all: assert (vs = s) as ->
      by (unfold check_range in Hs;
          destruct (s <? 60)%Z; [discriminate|];
          destruct (300 <? s)%Z; [discriminate|]; congruence).
  all: rewrite (validate_blood_pressure_seen vd s) by reflexivity.
  all: destruct (vd >=? s)%Z; reflexivity.
Qed.

(** X3. A vitals request is accepted exactly when pulse is in 30..250,
    systolic pressure in 60..300, diastolic pressure in 30..200 and below the
    systolic pressure. When only the last condition fails, the one error is
    that of [validate_blood_pressure]; when the systolic pressure is out of
    range, the two pressures are not compared. *)
Theorem VitalsRequest_accepts (pulse systolicBP diastolicBP : Z) :
  (valid_vitals pulse systolicBP diastolicBP ->
   VitalsRequest_validate pulse systolicBP diastolicBP
   = inr {| req_pulse := pulse;
            req_systolicBP := systolicBP;
            req_diastolicBP := diastolicBP |})
  /\ (~ valid_vitals pulse systolicBP diastolicBP ->
      exists err errs,
        VitalsRequest_validate pulse systolicBP diastolicBP = inl (err :: errs))
  /\ ((30 <= pulse <= 250)%Z -> (60 <= systolicBP <= 300)%Z ->
      (30 <= diastolicBP <= 200)%Z -> (systolicBP <= diastolicBP)%Z ->
      VitalsRequest_validate pulse systolicBP diastolicBP
      = inl [("diastolicBP", "Diastolic BP must be lower than systolic BP")])
  /\ (~ (60 <= systolicBP <= 300)%Z ->
      forall errs,
        VitalsRequest_validate pulse systolicBP diastolicBP = inl errs ->
        ~ In ("diastolicBP", "Diastolic BP must be lower than systolic BP") errs).
Proof.
  unfold VitalsRequest_validate, valid_vitals. rewrite VitalsRequest_errors.
  split; [|split; [|split]].
  - intros (Hp & Hs & Hd & Hlt).
    rewrite !check_range_ok by assumption.
    destruct (Z.geb_spec diastolicBP systolicBP); [lia | reflexivity].
  - intros Hn.
    destruct (check_range 30 250 pulse) as [vp|ep] eqn:Ep; [|now eexists _, _].
    destruct (check_range 60 300 systolicBP) as [vs|es] eqn:Es; [|now eexists _, _].
    destruct (check_range 30 200 diastolicBP) as [vd|ed] eqn:Ed; [|now eexists _, _].
    assert (Hr : forall lo hi v v', check_range lo hi v = Ok v' ->
                                    (lo <= v <= hi)%Z /\ v' = v).
    { intros lo hi v v'. unfold check_range.
      destruct (Z.ltb_spec v lo); [discriminate|].
      destruct (Z.ltb_spec hi v); [discriminate|]. intros [= <-]. lia. }
    apply Hr in Ep, Es, Ed. destruct Ed as [Hd ->].
    destruct (Z.geb_spec diastolicBP systolicBP); [now eexists _, _ | lia].
  - intros Hp Hs Hd Hge. rewrite !check_range_ok by assumption.
    destruct (Z.geb_spec diastolicBP systolicBP); [reflexivity | lia].
  - intros Hs errs. destruct (check_range_fails _ _ _ Hs) as [es ->].
    destruct (check_range 30 250 pulse) as [vp|ep];
      destruct (check_range 30 200 diastolicBP) as [vd|ed] eqn:Ed; simpl;
      intros [= <-]; simpl; intros H;
      repeat (destruct H as [H|H]; [try discriminate|]); try contradiction.
    all: unfold check_range in Ed;
      destruct (diastolicBP <? 30)%Z;
      [|destruct (200 <? diastolicBP)%Z; [|discriminate]];
      injection Ed as <-; simpl in H; discriminate.
Qed.

(** The reading 80, 80, 90 of the test suite: only the order of the two
    pressures is wrong. *)
Lemma VitalsRequest_accepts_witness :
  VitalsRequest_validate 80 80 90
  = inl [("diastolicBP", "Diastolic BP must be lower than systolic BP")].
Proof.
  apply (proj1 (proj2 (proj2 (VitalsRequest_accepts 80 80 90)))); lia.
Defined.

(** ** Storing vitals *)

Lemma compute_flags_present (vitals : gmap string Z) (p s d : Z) (tr : list event) :
  vitals !! "pulse" = Some p ->
  vitals !! "systolicBP" = Some s ->
  vitals !! "diastolicBP" = Some d ->
  compute_flags vitals tr = (Ok (threshold_flags p s d), tr).
Proof.
  intros Hp Hs Hd. unfold compute_flags. unfold_m. now rewrite Hp, Hs, Hd.
Qed.

(** [flag_vitals] on a dictionary that has the three keys, by the answer of
    the store. *)
Lemma flag_vitals_eq (w : World) (vitals : gmap string Z)
    (info : option (list (string * value))) (tr : list event) (p s d : Z) :
  vitals !! "pulse" = Some p ->
  vitals !! "systolicBP" = Some s ->
  vitals !! "diastolicBP" = Some d ->
  flag_vitals w vitals info tr =
    let f := threshold_flags p s d in
    let record := vitals_record p s d f (or_empty info) in
    let failed (e : exn) :=
      (Ok (vitals_unstored w f),
       (tr ++ [EvInsert "vitals" record;
               EvPrint ("Error storing vitals data: " ++ exn_str e)])%list) in
    match store_insert w "vitals" record with
    | Raise e => failed e
    | Ok [] => failed IndexError
    | Ok (row :: _) =>
        match row !! "id", row !! "created_at" with
        | Some id, Some created_at =>
            (Ok {| flags := f;
                   vitals_record_id := id;
                   vitals_timestamp := created_at;
                   vitals_data := Some row;
                   vitals_error := None |},
             (tr ++ [EvInsert "vitals" record])%list)
        | None, _ => failed (KeyError "id")
        | Some _, None => failed (KeyError "created_at")
        end
    end.
Proof.
  intros Hp Hs Hd. unfold flag_vitals, bind at 1.
  rewrite (compute_flags_present _ _ _ _ _ Hp Hs Hd).
  unfold insert. unfold_m. rewrite Hp, Hs, Hd. cbv zeta.
  destruct (store_insert w "vitals" _) as [[|row rows]|e];
    [| destruct (row !! "id") as [id|];
       [destruct (row !! "created_at") as [created|] |] |];
    rewrite <- ?app_assoc; reflexivity.
Qed.

(** X5. [flag_vitals] raises [KeyError] for the first of "pulse",
    "systolicBP", "diastolicBP" that the dictionary lacks, before anything is
    sent to the store; on a dictionary with the three keys it returns. *)
Theorem flag_vitals_missing_key (w : World) (vitals : gmap string Z)
    (info : option (list (string * value))) (tr : list event) :
  (forall k, first_missing vitals = Some k ->
             flag_vitals w vitals info tr = (Raise (KeyError k), tr))
  /\ (first_missing vitals = None ->
      exists r evs, flag_vitals w vitals info tr = (Ok r, (tr ++ evs)%list)).
Proof.
  unfold first_missing. split.
  - intros k. unfold flag_vitals, compute_flags. unfold_m.
    destruct (vitals !! "pulse"); [|now intros [= <-]].
    destruct (vitals !! "systolicBP"); [|now intros [= <-]].
    destruct (vitals !! "diastolicBP"); [discriminate | now intros [= <-]].
  - destruct (vitals !! "pulse") as [p|] eqn:Hp; [|discriminate].
    destruct (vitals !! "systolicBP") as [s|] eqn:Hs; [|discriminate].
    destruct (vitals !! "diastolicBP") as [d|] eqn:Hd; [|discriminate].
    intros _. rewrite (flag_vitals_eq w vitals info tr p s d Hp Hs Hd). cbv zeta.
    destruct (store_insert w "vitals" _) as [[|row rows]|e];
      [| destruct (row !! "id") as [id|];
         [destruct (row !! "created_at") as [created|] |] |];
      now eexists _, _.
Qed.

(** The partial reading of the test scripts: a pulse and nothing else. *)
Lemma flag_vitals_missing_key_witness :
  flag_vitals (sample_world groq_down true no_records) {[ "pulse" := 55%Z ]} None []
  = (Raise (KeyError "systolicBP"), []).
Proof.
  apply (proj1 (flag_vitals_missing_key (sample_world groq_down true no_records)
                  {[ "pulse" := 55%Z ]} None [])).
  reflexivity.
Defined.

(** X6. On a dictionary with the three readings [flag_vitals] sends one row
    to the table "vitals", with the readings, the flags of the thresholds and
    the patient information (empty when none is given). When the insert
    raises, or answers with no row or with a row that lacks "id" or
    "created_at", the flags are returned all the same, with no record id, the
    error marker and the time of the clock; otherwise the id and the creation
    time of the first row are returned. *)
Theorem flag_vitals_persistence (w : World) (vitals : gmap string Z)
    (info : option (list (string * value))) (tr : list event) (p s d : Z) :
  vitals !! "pulse" = Some p ->
  vitals !! "systolicBP" = Some s ->
  vitals !! "diastolicBP" = Some d ->
  exists r evs,
    flag_vitals w vitals info tr = (Ok r, (tr ++ evs)%list)
    /\ flags r = threshold_flags p s d
    /\ insert_events evs
       = [("vitals", vitals_record p s d (threshold_flags p s d) (or_empty info))]
    /\ (forall e,
          store_insert w "vitals"
            (vitals_record p s d (threshold_flags p s d) (or_empty info)) = Raise e ->
          r = vitals_unstored w (threshold_flags p s d)
          /\ In (EvPrint ("Error storing vitals data: " ++ exn_str e)) evs)
    /\ (forall rows,
          store_insert w "vitals"
            (vitals_record p s d (threshold_flags p s d) (or_empty info)) = Ok rows ->
          unusable_answer rows ->
          r = vitals_unstored w (threshold_flags p s d))
    /\ (forall row rest id created,
          store_insert w "vitals"
            (vitals_record p s d (threshold_flags p s d) (or_empty info))
          = Ok (row :: rest) ->
          row !! "id" = Some id ->
          row !! "created_at" = Some created ->
          r = {| flags := threshold_flags p s d;
                 vitals_record_id := id;
                 vitals_timestamp := created;
                 vitals_data := Some row;
                 vitals_error := None |}).
Proof.
  intros Hp Hs Hd. rewrite (flag_vitals_eq w vitals info tr p s d Hp Hs Hd). cbv zeta.
  destruct (store_insert w "vitals" _) as [[|row rows]|e];
    [| destruct (row !! "id") as [id|] eqn:Hid;
       [destruct (row !! "created_at") as [created|] eqn:Hcr |] |];
    eexists _, _; (split; [reflexivity|]); (split; [reflexivity|]);
    (split; [reflexivity|]); (split; [|split]).
  all: first
    [ intros e' He; (discriminate He)
                    || (injection He as <-; split; [reflexivity | right; now left])
    | intros rows' Hr Hu; (discriminate Hr)
                          || (injection Hr as <-; simpl in Hu;
                              first [reflexivity | destruct Hu; congruence])
    | intros row' rest id' cr' Hr Hid' Hcr'; (discriminate Hr)
                                             || (injection Hr as <- <-; congruence) ].
Qed.

(** The store is unreachable. *)
Lemma flag_vitals_persistence_witness :
  exists r evs,
    flag_vitals (sample_world groq_down false no_records)
      (vitals_data_of 55 120 80) None [] = (Ok r, ([] ++ evs)%list)
    /\ flags r = threshold_flags 55 120 80
    /\ vitals_error r = Some "Failed to store in database".
Proof.
  destruct (flag_vitals_persistence (sample_world groq_down false no_records)
              (vitals_data_of 55 120 80) None [] 55 120 80 eq_refl eq_refl eq_refl)
    as (r & evs & Hr & Hf & _ & Hfail & _).
  exists r, evs. split; [exact Hr|]. split; [exact Hf|].
  destruct (Hfail (Exception "connection refused") eq_refl) as [-> _]. reflexivity.
Defined.




(** ** More on strings *)

Module PyStrMore.
Import PyStr.

Ltac app_simpl :=
  repeat match goal with
         | |- context [String.append (String ?x ?a) ?b] =>
             change (String.append (String x a) b) with (String x (String.append a b))
         | |- context [String.append EmptyString ?b] =>
             change (String.append EmptyString b) with b
         end.

Lemma append_assoc (a b c : string) :
  String.append (String.append a b) c = String.append a (String.append b c).
Proof. induction a as [|x a IH]; app_simpl; congruence. Qed.

Lemma append_length (a b : string) :
  String.length (String.append a b) = (String.length a + String.length b)%nat.
Proof. induction a as [|x a IH]; app_simpl; simpl; congruence. Qed.

(** An occurrence survives text put before and after. *)
Lemma occurs_in_embed (k t pre post : string) :
  occurs_in k t -> occurs_in k (String.append pre (String.append t post)).
Proof.
  intros (a & b & ->). exists (String.append pre a), (String.append b post).
  now rewrite !append_assoc.
Qed.

(** *** Stripping gives a part of the string *)

Lemma lstrip_suffix (s : string) :
  exists a, s = String.append a (lstrip s) /\ all_space a = true.
Proof.
  induction s as [|c r (a & IH & Ha)]; [now exists EmptyString|]. cbn [lstrip].
  destruct (is_space c) eqn:Hc.
  - exists (String c a). app_simpl. split; [now rewrite <- IH|].
    simpl. now rewrite Hc, Ha.
  - now exists EmptyString.
Qed.

Lemma rstrip_prefix (s : string) :
  exists b, s = String.append (rstrip s) b /\ all_space b = true.
Proof.
  induction s as [|c r (b & IH & Hb)]; [now exists EmptyString|]. cbn [rstrip].
  destruct (rstrip r) as [|c' r'] eqn:Hr.
  - destruct (is_space c) eqn:Hc.
    + exists (String c r). split; [reflexivity|]. simpl. rewrite Hc. simpl.
      rewrite IH. exact Hb.
    + exists b. app_simpl. split; [now rewrite IH at 1 | exact Hb].
  - exists b. app_simpl. split; [now rewrite IH at 1 | exact Hb].
Qed.

(** The stripped string is the string without white space at its ends. *)
Lemma strip_infix (s : string) :
  exists a b,
    s = String.append a (String.append (strip s) b)
    /\ all_space a = true /\ all_space b = true.
Proof.
  destruct (lstrip_suffix s) as (a & Ha & Hsa).
  destruct (rstrip_prefix (lstrip s)) as (b & Hb & Hsb).
  exists a, b. unfold strip. now rewrite <- Hb.
Qed.

Lemma strip_length (s : string) : (String.length (strip s) <= String.length s)%nat.
Proof.
  destruct (strip_infix s) as (a & b & H & _).
  rewrite H at 2. rewrite !append_length. lia.
Qed.

(** *** Stripping twice *)

Lemma lstrip_starts_solid (s : string) : starts_solid (lstrip s).
Proof.
  induction s as [|c r IH]; simpl; [exact I|].
  destruct (is_space c) eqn:Hc; [exact IH | exact Hc].
Qed.

Lemma lstrip_solid (s : string) : starts_solid s -> lstrip s = s.
Proof. destruct s as [|c r]; simpl; [reflexivity|]. now intros ->. Qed.

Lemma rstrip_starts_solid (s : string) : starts_solid s -> starts_solid (rstrip s).
Proof.
  destruct s as [|c r]; cbn [rstrip starts_solid]; [exact id|]. intros Hc.
  destruct (rstrip r); [rewrite Hc|]; exact Hc.
Qed.

Lemma rstrip_idem (s : string) : rstrip (rstrip s) = rstrip s.
Proof.
  induction s as [|c r IH]; cbn [rstrip]; [reflexivity|].
  destruct (rstrip r) as [|c' r'] eqn:Hr.
  - destruct (is_space c) eqn:Hc; [reflexivity|]. simpl. now rewrite Hc.
  - cbn [rstrip]. cbn [rstrip] in IH. now rewrite IH.
Qed.

Lemma strip_starts_solid (s : string) : starts_solid (strip s).
Proof. apply rstrip_starts_solid, lstrip_starts_solid. Qed.

Lemma strip_idem (s : string) : strip (strip s) = strip s.
Proof.
  unfold strip at 1. rewrite (lstrip_solid _ (strip_starts_solid s)).
  unfold strip. apply rstrip_idem.
Qed.

(** *** Case and white space *)








(** *** Lines have no line feed *)






End PyStrMore.

(** ** The orchestrator, continued *)

(** [store_triage] by the answer of the store. *)
Lemma store_triage_eq (w : World) (text label : string)
    (info : list (string * value)) (use_ai : bool) (tr : list event) :
  store_triage w text label info use_ai tr =
    let record := triage_record text label info use_ai in
    let failed (e : exn) :=
      (Ok (triage_unstored w label),
       (tr ++ [EvInsert "triage" record;
               EvPrint ("Error storing triage data: " ++ exn_str e)])%list) in
    match store_insert w "triage" record with
    | Raise e => failed e
    | Ok [] => failed IndexError
    | Ok (row :: _) =>
        match row !! "id", row !! "created_at" with
        | Some id, Some created_at =>
            (Ok {| triage_level := label;
                   record_id := id;
                   timestamp := created_at;
                   data := Some row;
                   error := None |},
             (tr ++ [EvInsert "triage" record])%list)
        | None, _ => failed (KeyError "id")
        | Some _, None => failed (KeyError "created_at")
        end
    end.
Proof.
  unfold store_triage, insert. unfold_m. cbv zeta.
  destruct (store_insert w "triage" _) as [[|row rows]|e];
    [| destruct (row !! "id") as [id|];
       [destruct (row !! "created_at") as [created|] |] |];
    rewrite <- ?app_assoc; reflexivity.
Qed.

(** The label is chosen with one provider call when [use_ai] is true, with
    none otherwise, and nothing is stored or read meanwhile. *)
Lemma choose_level_events (w : World) (text : string) (use_ai : bool) (tr : list event) :
  exists label evs,
    choose_level w text use_ai tr = (Ok label, (tr ++ evs)%list)
    /\ groq_events evs = (if use_ai then [user_message text] else [])
    /\ insert_events evs = [] /\ select_events evs = [].
Proof.
  destruct use_ai.
  - pose proof (call_groq_eq w text tr) as Hg.
    destruct (groq_complete w (user_message text)) as [content|e];
      [destruct (PyStr.truthy (PyStr.strip content))|].
    + rewrite (choose_level_ai_ok _ _ _ _ _ Hg). now eexists _, _.
    + rewrite (choose_level_ai_fails _ _ _ _ _ Hg), <- app_assoc. now eexists _, _.
    + rewrite (choose_level_ai_fails _ _ _ _ _ Hg), <- app_assoc. now eexists _, _.
  - exists (rule_based_triage text), []. rewrite app_nil_r. now repeat split.
Qed.

Lemma insert_events_app (a b : list event) :
  insert_events (a ++ b) = (insert_events a ++ insert_events b)%list.
Proof. apply flat_map_app. Qed.

Lemma groq_events_app (a b : list event) :
  groq_events (a ++ b) = (groq_events a ++ groq_events b)%list.
Proof. apply flat_map_app. Qed.

Lemma select_events_app (a b : list event) :
  select_events (a ++ b) = (select_events a ++ select_events b)%list.
Proof. apply flat_map_app. Qed.



(** X8. [triage_patient] always returns. It calls the provider once when
    [use_ai] is true and not at all otherwise, reads nothing from the store,
    and sends one row to the table "triage": the symptom text, the label that
    it returns, the patient information (empty when none is given) and the
    [use_ai] flag. *)
Theorem triage_patient_effects (w : World) (text : string)
    (info : option (list (string * value))) (use_ai : bool) (tr : list event) :
  exists r evs,
    triage_patient w text info use_ai tr = (Ok r, (tr ++ evs)%list)
    /\ insert_events evs
       = [("triage", triage_record text (triage_level r) (or_empty info) use_ai)]
    /\ groq_events evs = (if use_ai then [user_message text] else [])
    /\ select_events evs = [].
Proof.
  destruct (choose_level_events w text use_ai tr) as (label & evs1 & Hc & Hg & Hi & Hs).
  rewrite (triage_patient_eq _ _ _ _ _ _ _ Hc), store_triage_eq. cbv zeta.
  destruct (store_insert w "triage" _) as [[|row rows]|e];
    [| destruct (row !! "id") as [id|];
       [destruct (row !! "created_at") as [created|] |] |];
    eexists _, _; rewrite <- app_assoc; (split; [reflexivity|]);
    rewrite insert_events_app, groq_events_app, select_events_app, Hg, Hi, Hs;
    cbn [triage_level triage_unstored]; rewrite app_nil_r; repeat split.
Qed.

(** X7. When the store answers the insert without raising, but with no row
    or with a first row that lacks "id" or "created_at", [triage_patient]
    reports the result as not stored: the chosen label, no record id, the time
    of the clock and the error marker. *)
Theorem triage_patient_unusable_answer (w : World) (text : string)
    (info : option (list (string * value))) (use_ai : bool)
    (tr tr1 : list event) (label : string) (rows : list (gmap string value)) :
  choose_level w text use_ai tr = (Ok label, tr1) ->
  store_insert w "triage" (triage_record text label (or_empty info) use_ai) = Ok rows ->
  unusable_answer rows ->
  exists tr',
    triage_patient w text info use_ai tr = (Ok (triage_unstored w label), tr').
Proof.
  intros Hc Hins Hu.
  rewrite (triage_patient_eq _ _ _ _ _ _ _ Hc), store_triage_eq. cbv zeta.
  rewrite Hins. destruct rows as [|row rows]; [now eexists|].
  simpl in Hu. destruct (row !! "id") as [id|]; [|now eexists].
  destruct (row !! "created_at") as [created|]; [|now eexists].
  destruct Hu; discriminate.
Qed.

(** A store that acknowledges the insert without returning the row. *)
Lemma triage_patient_unusable_answer_witness :
  exists tr',
    triage_patient silent_world "coma" None false []
    = (Ok {| triage_level := "Critical";
             record_id := VNone;
             timestamp := VStr "2024-05-01T10:00:01.000000";
             data := None;
             error := Some "Failed to store in database" |}, tr').
Proof.
  exact (triage_patient_unusable_answer silent_world "coma" None false [] []
           "Critical" [] eq_refl eq_refl I).
Defined.

(** X9. A provider response that is empty or white space only counts as a
    failure of the adapter: [triage_patient] returns the label of
    [rule_based_triage] and logs the failure. *)
Theorem triage_patient_blank_response (w : World) (text content : string)
    (info : option (list (string * value))) (tr : list event) :
  groq_complete w (user_message text) = Ok content ->
  all_space content = true ->
  call_groq w text tr
  = (Raise (Exception "Groq API error: No response from Groq AI"),
     (tr ++ [EvGroq (user_message text)])%list)
  /\ exists r tr',
       triage_patient w text info true tr = (Ok r, tr')
       /\ triage_level r = rule_based_triage text
       /\ In (EvPrint ("AI failed, using rule-based fallback: "
                       ++ "Groq API error: No response from Groq AI")) tr'.
Proof.
  intros Hg Hb. apply PyStrFacts.strip_blank in Hb.
  pose proof (call_groq_eq w text tr) as Hcall. rewrite Hg, Hb in Hcall.
  split; [exact Hcall|].
  rewrite (triage_patient_eq _ _ _ _ _ _ _ (choose_level_ai_fails _ _ _ _ _ Hcall)).
  destruct (store_triage_total w text (rule_based_triage text) (or_empty info) true
              ((tr ++ [EvGroq (user_message text)]) ++
               [EvPrint ("AI failed, using rule-based fallback: " ++
                         exn_str (Exception "Groq API error: No response from Groq AI"))])%list)
    as (r & evs & -> & Hl & _).
  exists r. eexists. split; [reflexivity | split; [exact Hl|]].
  apply in_or_app. left. apply in_or_app. right. now left.
Qed.

(** The provider answers with blank lines only. *)
Lemma triage_patient_blank_response_witness :
  exists r tr',
    triage_patient (sample_world (groq_says (LF ++ "  " ++ LF)) true no_records)
      "slurred speech since this morning" None true [] = (Ok r, tr')
    /\ triage_level r = rule_based_triage "slurred speech since this morning"
    /\ In (EvPrint ("AI failed, using rule-based fallback: "
                    ++ "Groq API error: No response from Groq AI")) tr'.
Proof.
  exact (proj2 (triage_patient_blank_response
                  (sample_world (groq_says (LF ++ "  " ++ LF)) true no_records)
                  "slurred speech since this morning" (LF ++ "  " ++ LF) None []
                  eq_refl eq_refl)).
Defined.

(** ** The form of the adapter's answer *)






(** ** Requests that pass validation *)

Lemma has_pii_part (raw a s b : string) :
  raw = String.append a (String.append s b) ->
  has_pii s = true -> has_pii raw = true.
Proof.
  intros -> H. apply has_pii_spec in H. apply has_pii_spec.
  apply List.Exists_exists in H as (m & Hin & Hocc).
  apply List.Exists_exists. exists m. split; [exact Hin|].
  rewrite !PyStrFacts.lower_append. now apply PyStrMore.occurs_in_embed.
Qed.

(** X15. The text that reaches the triage core from an accepted request is
    the received text without the white space at its ends; it has between 1
    and 2000 characters, no white space at its ends, and none of the markers
    of sensitive information. *)
Theorem accepted_symptoms (raw s : string) :
  TriageRequest_symptoms raw = Ok s ->
  (exists a b,
      raw = String.append a (String.append s b)
      /\ all_space a = true /\ all_space b = true)
  /\ (1 <= len s <= 2000)%Z
  /\ PyStr.strip s = s
  /\ has_pii s = false.
Proof.
  rewrite TriageRequest_symptoms_eq.
  destruct (Z.ltb_spec (len raw) 5); [discriminate|].
  destruct (Z.ltb_spec 2000 (len raw)); [discriminate|].
  destruct (PyStr.truthy (PyStr.strip raw)) eqn:Ht; [|discriminate].
  destruct (has_pii raw) eqn:Hp; [discriminate|]. simpl. intros [= <-].
  destruct (PyStrMore.strip_infix raw) as (a & b & Hraw & Ha & Hb).
  split; [now exists a, b|]. split; [|split].
  - pose proof (PyStrMore.strip_length raw). unfold len in *.
    destruct (PyStr.strip raw); [discriminate|]. simpl String.length in *. lia.
  - apply PyStrMore.strip_idem.
  - destruct (has_pii (PyStr.strip raw)) eqn:Hs; [|reflexivity].
    rewrite (has_pii_part raw a _ b Hraw Hs) in Hp. discriminate.
Qed.

(** A padded text of the test suite. *)
Lemma accepted_symptoms_witness :
  (1 <= len "Patient has mild headache and feels tired" <= 2000)%Z
  /\ PyStr.strip "Patient has mild headache and feels tired"
     = "Patient has mild headache and feels tired"
  /\ has_pii "Patient has mild headache and feels tired" = false.
Proof.
  exact (proj2 (accepted_symptoms
                  ("  Patient has mild headache and feels tired" ++ LF)
                  "Patient has mild headache and feels tired" eq_refl)).
Defined.


(** ** Keywords in a longer text *)

Lemma mentions_embed (group : list string) (pre s post : string) :
  mentions group (PyStr.lower s) ->
  mentions group (PyStr.lower (String.append pre (String.append s post))).
Proof.
  intros (k & Hin & Hocc). exists k. split; [exact Hin|].
  rewrite !PyStrFacts.lower_append. now apply PyStrMore.occurs_in_embed.
Qed.

Lemma any_keyword_embed (li : level_info) (pre s post : string) :
  any_keyword (PyStr.lower s) li = true ->
  any_keyword (PyStr.lower (String.append pre (String.append s post))) li = true.
Proof.
  intros H. apply any_keyword_spec. apply mentions_embed. now apply any_keyword_spec.
Qed.

Lemma mentions_any_cases (text : string) :
  mentions_any text ->
  mentions critical_keywords text \/ mentions urgent_keywords text
  \/ mentions moderate_keywords text \/ mentions low_keywords text.
Proof.
  intros (k & Hin & Hocc). unfold mentions.
  apply in_app_or in Hin as [H | H]; [left; eauto|].
  apply in_app_or in H as [H | H]; [right; left; eauto|].
  apply in_app_or in H as [H | H]; [right; right; left; eauto|].
  right; right; right; eauto.
Qed.

(** X11. Text put before or after a text that has a keyword never lowers its
    label: the label of the longer text is at least as urgent, and a Critical
    text stays Critical. *)
Theorem rule_based_triage_embedding (pre s post : string) :
  (mentions_any (PyStr.lower s) ->
   (rank (rule_based_triage s)
    <= rank (rule_based_triage (String.append pre (String.append s post))))%nat)
  /\ (rule_based_triage s = "Critical" ->
      rule_based_triage (String.append pre (String.append s post)) = "Critical").
Proof.
  pose proof (fun li => any_keyword_embed li pre s post) as He.
  pose proof (He {| level := "Critical"; keywords := critical_keywords |}) as Hc.
  pose proof (He {| level := "Urgent"; keywords := urgent_keywords |}) as Hu.
  pose proof (He {| level := "Moderate"; keywords := moderate_keywords |}) as Hm.
  pose proof (He {| level := "Low"; keywords := low_keywords |}) as Hl.
  clear He. split.
  - intros Hany. apply mentions_any_cases in Hany.
    assert (Hsome :
              any_keyword (PyStr.lower s) {| level := "Critical"; keywords := critical_keywords |}
              || any_keyword (PyStr.lower s) {| level := "Urgent"; keywords := urgent_keywords |}
              || any_keyword (PyStr.lower s) {| level := "Moderate"; keywords := moderate_keywords |}
              || any_keyword (PyStr.lower s) {| level := "Low"; keywords := low_keywords |}
              = true).
    { rewrite !orb_true_iff.
      destruct Hany as [H | [H | [H | H]]];
        apply (group_hit_true _ "x") in H; unfold any_keyword in *; cbn [keywords] in *;
        tauto. }
    rewrite !rule_based_triage_unfold. cbv zeta.
    destruct (any_keyword (PyStr.lower s) {| level := "Critical" |});
      destruct (any_keyword (PyStr.lower s) {| level := "Urgent" |});
      destruct (any_keyword (PyStr.lower s) {| level := "Moderate" |});
      destruct (any_keyword (PyStr.lower s) {| level := "Low" |});
      try discriminate Hsome;
      repeat match goal with
             | H : true = true -> _ |- _ => specialize (H eq_refl); rewrite H
             | H : false = true -> _ |- _ => clear H
             end;
      repeat match goal with
             | |- context [any_keyword ?t ?li] => destruct (any_keyword t li)
             end;
      vm_compute; lia.
  - rewrite !rule_based_triage_unfold. cbv zeta.
    destruct (any_keyword (PyStr.lower s) {| level := "Critical" |}).
    + intros _. now rewrite (Hc eq_refl).
    + repeat match goal with
             | |- context [any_keyword (PyStr.lower s) ?li] =>
                 destruct (any_keyword (PyStr.lower s) li)
             end; discriminate.
Qed.

(** "headache" is Moderate; among other words it is Moderate still, and with
    "vomiting" added it is Urgent. *)
Lemma rule_based_triage_embedding_witness :
  (rank (rule_based_triage "headache")
   <= rank (rule_based_triage ("Since noon: " ++ "headache" ++ " and vomiting")))%nat.
Proof.
  apply (proj1 (rule_based_triage_embedding "Since noon: " "headache" " and vomiting")).
  exists "headache". split; [simpl; tauto|]. now exists EmptyString, EmptyString.
Defined.

(** ** The statistics, continued *)

Lemma key_eqb_sym (a b : value) : key_eqb a b = key_eqb b a.
Proof.
  destruct a as [| x | x | x | x], b as [| y | y | y | y]; simpl; try reflexivity.
  - now destruct x, y.
  - apply Z.eqb_sym.
  - apply String.eqb_sym.
Qed.

Lemma key_eqb_trans (a b c : value) :
  key_eqb a b = true -> key_eqb a c = key_eqb b c.
Proof.
  destruct a as [| x | x | x | x], b as [| y | y | y | y]; simpl; try discriminate;
    intros H; try apply Bool.eqb_prop in H; try apply Z.eqb_eq in H;
    try apply String.eqb_eq in H; subst;
    destruct c as [| z | z | z | z]; simpl; try reflexivity;
    repeat match goal with b : bool |- _ => destruct b end; reflexivity.
Qed.

Lemma dict_get_key (d : list (value * Z)) (k k' : value) (x : Z) :
  key_eqb k k' = true -> dict_get d k x = dict_get d k' x.
Proof.
  intros H. induction d as [|[k0 n0] d IH]; simpl; [reflexivity|].
  rewrite (key_eqb_sym k0 k), (key_eqb_sym k0 k'), (key_eqb_trans _ _ k0 H).
  now rewrite IH.
Qed.

(** Reading after writing: the written key, and those equal to it, give the
    new count; the others are unchanged. *)
Lemma dict_get_set (d : list (value * Z)) (k' k : value) (n x : Z) :
  dict_get (dict_set d k' n) k x
  = if key_eqb k' k then n else dict_get d k x.
Proof.
  induction d as [|[k0 n0] d IH]; simpl; [reflexivity|].
  destruct (key_eqb k0 k') eqn:E0; simpl.
  - rewrite (key_eqb_trans _ _ k E0). now destruct (key_eqb k' k).
  - rewrite IH. destruct (key_eqb k' k) eqn:E1; [|reflexivity].
    destruct (key_eqb k0 k) eqn:E2; [|reflexivity].
    rewrite (key_eqb_trans _ _ k' E2), key_eqb_sym, E1 in E0. discriminate.
Qed.

Lemma sum_counts_set (d : list (value * Z)) (k : value) (n : Z) :
  sum_counts (dict_set d k n) = (sum_counts d + n - dict_get d k 0)%Z.
Proof.
  induction d as [|[k0 n0] d IH]; simpl; [lia|].
  destruct (key_eqb k0 k); simpl; [lia | rewrite IH; lia].
Qed.

Lemma count_level_cons (k : value) (r : gmap string value)
    (rs : list (gmap string value)) :
  count_level k (r :: rs)
  = ((if key_eqb (record_level r) k then 1 else 0) + count_level k rs)%Z.
Proof.
  unfold count_level. cbn [List.filter].
  destruct (key_eqb (record_level r) k); cbn [List.length]; lia.
Qed.

(** The loop of [count_levels], started from any dictionary. *)
Lemma count_levels_from (rs : list (gmap string value)) :
  forall (d d' : list (value * Z)) (tr tr' : list event),
    count_levels d rs tr = (Ok d', tr') ->
    sum_counts d' = (sum_counts d + Z.of_nat (List.length rs))%Z
    /\ (forall k, dict_get d' k 0 = (dict_get d k 0 + count_level k rs)%Z)
    /\ Forall (fun r => hashable (record_level r) = true) rs.
Proof.
  induction rs as [|r rs IH]; intros d d' tr tr'; cbn [count_levels].
  - intros [= <- _]. unfold count_level. simpl. repeat split; try lia. constructor.
  - cbv zeta. fold (record_level r). destruct (hashable (record_level r)) eqn:Hh;
      [|discriminate].
    intros H. apply IH in H as (Hsum & Hget & Hall).
    rewrite sum_counts_set in Hsum. split; [|split].
    + rewrite Hsum. cbn [List.length]. lia.
    + intros k. rewrite Hget, dict_get_set, count_level_cons.
      destruct (key_eqb (record_level r) k) eqn:E; [|lia].
      rewrite (dict_get_key d _ _ 0 E). lia.
    + now constructor.
Qed.




Lemma round_half_even_bounds (x : Q) (a b : Z) :
  (inject_Z a <= x)%Q -> (x <= inject_Z b)%Q -> (a <= round_half_even x <= b)%Z.
Proof.
  intros Ha Hb.
  assert (Hfa : (a <= Qfloor x)%Z).
  { rewrite <- (Qfloor_Z a). now apply Qfloor_resp_le. }
  assert (Hfb : (Qfloor x <= b)%Z).
  { rewrite <- (Qfloor_Z b). now apply Qfloor_resp_le. }
  unfold round_half_even. cbv zeta.
  change (Qfloor x # 1)%Q with (inject_Z (Qfloor x)).
  destruct (Qcompare_spec (x - inject_Z (Qfloor x)) (1 # 2)) as [H|H|H].
  - destruct (Z.even (Qfloor x)); [lia|].
    destruct (Z.eq_dec (Qfloor x) b) as [E|E]; [|lia].
    rewrite E in H. lra.
  - lia.
  - destruct (Z.eq_dec (Qfloor x) b) as [E|E]; [|lia].
    rewrite E in H. lra.
Qed.

Lemma round2_bounds (x : Q) :
  (0 <= x)%Q -> (x <= 100)%Q -> (0 <= round2 x)%Q /\ (round2 x <= 100)%Q.
Proof.
  intros H0 H1.
  destruct (round_half_even_bounds (x * (100 # 1)) 0 10000) as [Hlo Hhi].
  - change (inject_Z 0) with 0%Q. lra.
  - change (inject_Z 10000) with (10000 # 1)%Q. lra.
  - unfold round2, Qle. simpl. lia.
Qed.

Lemma percentage_bounds (f n : Z) :
  (0 <= f <= n)%Z -> (0 < n)%Z ->
  (0 <= inject_Z f / inject_Z n * inject_Z 100)%Q
  /\ (inject_Z f / inject_Z n * inject_Z 100 <= 100)%Q.
Proof.
  intros Hf Hn.
  assert (Hq : (inject_Z f / inject_Z n == f # Z.to_pos n)%Q).
  { rewrite Qmake_Qdiv. now rewrite Z2Pos.id. }
  rewrite Hq. unfold Qle, Qmult, inject_Z. simpl.
  rewrite ?Pos2Z.inj_mul, ?Z2Pos.id by lia. nia.
Qed.

Lemma flagged_count_bounds (rs : list (gmap string value)) :
  (0 <= flagged_count rs <= Z.of_nat (List.length rs))%Z.
Proof.
  unfold flagged_count. split; [lia|]. apply Nat2Z.inj_le.
  induction rs as [|r rs IH]; simpl; [lia|].
  destruct (match r !! "any_flag" with Some v => value_truthy v | None => false end);
    simpl; lia.
Qed.

(** A successful run of the body of [get_triage_stats], by the rows read. *)
Lemma stats_body_ok (w : World) (tr tr' : list event) (s : Stats) :
  stats_body w tr = (Ok s, tr') ->
  exists tr2,
    count_levels [] (rows_or_none (store_select w "triage" 100)) tr2
    = (Ok (levels_breakdown s), tr2)
    /\ total_assessments s
       = Z.of_nat (List.length (rows_or_none (store_select w "triage" 100)))
    /\ total_checks s
       = Z.of_nat (List.length (rows_or_none (store_select w "vitals" 100)))
    /\ flagged_cases s = flagged_count (rows_or_none (store_select w "vitals" 100))
    /\ flag_percentage s
       = match rows_or_none (store_select w "vitals" 100) with
         | [] => round2 0
         | _ :: _ =>
             round2 (inject_Z (flagged_cases s) / inject_Z (total_checks s)
                     * inject_Z 100)
         end.
Proof.
  unfold stats_body, get_recent_triage_records, get_recent_vitals_records.
  unfold bind at 1. rewrite get_recent_records_eq. cbv beta iota.
  unfold bind at 1. rewrite get_recent_records_eq. cbv beta iota.
  set (trs := rows_or_none (store_select w "triage" 100)).
  set (vrs := rows_or_none (store_select w "vitals" 100)).
  match goal with |- bind _ _ ?t = _ -> _ => set (tr2 := t) end.
  unfold bind at 1.
  destruct (count_levels_outcome trs [] tr2) as [[d Hd] | Hd]; rewrite Hd;
    [|discriminate].
  unfold bind at 1. intros H. exists tr2.
  destruct vrs as [|v vrs'] eqn:Ev.
  - rewrite flag_percentage_of_empty in H. injection H as <- _. now repeat split.
  - rewrite flag_percentage_of_cons in H. injection H as <- _. now repeat split.
Qed.

(** X13. In every answer 200 of [get_triage_stats] the level counts add up
    to [total_assessments], the flagged cases are between 0 and
    [total_checks], and the percentage is between 0 and 100. *)
Theorem stats_invariants (w : World) (tr tr' : list event) (s : Stats) :
  get_triage_stats w tr = (Ok (Http200 s), tr') ->
  sum_counts (levels_breakdown s) = total_assessments s
  /\ (0 <= flagged_cases s <= total_checks s)%Z
  /\ (0 <= flag_percentage s)%Q /\ (flag_percentage s <= 100)%Q.
Proof.
  unfold get_triage_stats. unfold_m.
  destruct (stats_body w tr) as [[s'|e] tr1] eqn:Hb; [|discriminate].
  intros [= <- _]. apply stats_body_ok in Hb as (tr2 & Hd & Hta & Htc & Hfc & Hp).
  pose proof (flagged_count_bounds (rows_or_none (store_select w "vitals" 100))) as Hf.
  rewrite <- Hfc, <- Htc in Hf.
  apply count_levels_from in Hd as (Hsum & _). simpl in Hsum.
  split; [now rewrite Hsum, Hta|]. split; [exact Hf|].
  rewrite Hp. destruct (rows_or_none (store_select w "vitals" 100)) as [|v vrs].
  - split; [discriminate | discriminate].
  - apply round2_bounds; apply percentage_bounds; try exact Hf;
      rewrite Htc; simpl; lia.
Qed.

(** The sample store: three triage rows, three vitals rows, one flagged. *)
Lemma stats_invariants_witness :
  (2 + (1 + 0) = 3)%Z /\ (0 <= 1 <= 3)%Z
  /\ (0 <= Qmake 3333 100)%Q /\ (Qmake 3333 100 <= 100)%Q.
Proof.
  exact (stats_invariants (sample_world groq_down true sample_records) [] _
           {| total_assessments := 3;
              levels_breakdown := [(VStr "Urgent", 2%Z); (VStr "Low", 1%Z)];
              total_checks := 3;
              flagged_cases := 1;
              flag_percentage := Qmake 3333 100;
              stats_timestamp := "2024-05-01T10:00:01.000000" |} eq_refl).
Defined.

(** X14. When the store cannot be read, [get_triage_stats] still answers
    200: no assessment, no level, no check, no flagged case and a percentage
    of 0, each failed read being logged. *)
Theorem stats_store_unreadable (w : World) (tr : list event) :
  reads_fail w ->
  exists s evs,
    get_triage_stats w tr = (Ok (Http200 s), (tr ++ evs)%list)
    /\ total_assessments s = 0%Z /\ levels_breakdown s = []
    /\ total_checks s = 0%Z /\ flagged_cases s = 0%Z
    /\ (flag_percentage s == 0)%Q
    /\ select_events evs = [("triage", 100%Z); ("vitals", 100%Z)]
    /\ (exists e, In (EvPrint ("Error fetching triage records: " ++ exn_str e)) evs)
    /\ (exists e, In (EvPrint ("Error fetching vitals records: " ++ exn_str e)) evs).
Proof.
  intros Hf. destruct (Hf "triage" 100%Z) as [e1 H1]. destruct (Hf "vitals" 100%Z) as [e2 H2].
  unfold get_triage_stats, stats_body, get_recent_triage_records,
    get_recent_vitals_records.
  unfold try_except at 1. unfold bind at 1. unfold bind at 1.
  rewrite get_recent_records_eq, H1. cbn [rows_or_none].
  unfold bind at 1. rewrite get_recent_records_eq, H2. cbn [rows_or_none].
  unfold_m. cbn [count_levels]. unfold flag_percentage_of. unfold_m.
  eexists _, _. rewrite <- !app_assoc. split; [reflexivity|].
  cbn. repeat split; try reflexivity.
  - exists e1. right. now left.
  - exists e2. do 3 right. now left.
Qed.

(** Neither table can be read. *)
Lemma stats_store_unreadable_witness :
  exists s evs,
    get_triage_stats blind_world [] = (Ok (Http200 s), ([] ++ evs)%list)
    /\ total_assessments s = 0%Z /\ levels_breakdown s = []
    /\ total_checks s = 0%Z /\ flagged_cases s = 0%Z
    /\ (flag_percentage s == 0)%Q
    /\ select_events evs = [("triage", 100%Z); ("vitals", 100%Z)]
    /\ (exists e, In (EvPrint ("Error fetching triage records: " ++ exn_str e)) evs)
    /\ (exists e, In (EvPrint ("Error fetching vitals records: " ++ exn_str e)) evs).
Proof.
  apply (stats_store_unreadable blind_world []).
  intros table n. now eexists.
Defined.
